(** * Attachment Style Quiz backend (main.py): scoring and classification

    A shallow embedding of [main.py] and the properties its specification
    states about it.

    Conventions of the embedding.
    - A Python [dict] with string keys is a [gmap string _]; subscripting
      [d[k]] is a lookup that raises [KeyError] when the key is absent.
    - A Python [str] is a [string] of bytes (UTF-8), so a non-ASCII character
      of a literal occupies several bytes.
    - Answer scores are Python integers, modelled by [Z]: their sum is exact.
    - A Python [float] is modelled by the rational number that the double
      is, kept in lowest terms ([Qred]). The quotient of two integers is the
      double nearest to the exact quotient, ties to the even mantissa, and
      [OverflowError] when that is beyond the range of a double. Integer
      division produces no infinity and no NaN; the sign of a zero is not
      represented.
    - Raising is an explicit [outcome]; the persistence collaborator is a
      parameter acting on a store, and every call to it is logged. *)

From Stdlib Require Import QArith Qround Qabs Lqa Qpower.
From stdpp Require Import gmap strings list fin_maps.

Local Open Scope Z_scope.

(** ** Python values and exceptions *)

Module Py.

Inductive exn : Type :=
| HTTPException (status_code : Z) (detail : string)
| KeyError (key : string)
| ZeroDivisionError
| OverflowError
| Exception (msg : string).

Inductive outcome (A : Type) : Type :=
| Return (a : A)
| Raise (e : exn).
Arguments Return {A} a.
Arguments Raise {A} e.

Definition bind {A B} (m : outcome A) (k : A → outcome B) : outcome B :=
  match m with
  | Return a => k a
  | Raise e => Raise e
  end.

Definition raises {A} (m : outcome A) : Prop :=
  match m with
  | Return _ => False
  | Raise _ => True
  end.

(** [d[k]] *)
Definition getitem {V} (d : gmap string V) (k : string) : outcome V :=
  match d !! k with
  | Some v => Return v
  | None => Raise (KeyError k)
  end.

(** [k in d] *)
Definition contains {V} (d : gmap string V) (k : string) : bool :=
  bool_decide (is_Some (d !! k)).

(** [sum(l)] on integers: left to right from 0. *)
Definition sum (l : list Z) : Z := fold_left Z.add l 0.

(** [len(l)] *)
Definition len {A} (l : list A) : Z := Z.of_nat (length l).

(** Nearest integer, ties to the even one. *)
Definition round_half_even (x : Q) : Z :=
  let f := Qfloor x in
  match ((x - inject_Z f) ?= (1 # 2))%Q with
  | Lt => f
  | Gt => f + 1
  | Eq => if Z.even f then f else f + 1
  end.

(** The exponent [e] with [2^e <= |q| < 2^(e+1)], for [q] other than 0. *)
Definition binade (q : Q) : Z :=
  let e0 := Z.log2 (Z.abs (Qnum q)) - Z.log2 (Zpos (Qden q)) in
  if Qle_bool (2 ^ e0) (Qabs q) then e0 else e0 - 1.

(** The exponent of the spacing of the doubles around [q]: 53 significant
    bits, and the spacing of the subnormal numbers below [2^-1022]. *)
Definition ulp_exp (q : Q) : Z := Z.max (binade q) (-1022) - 52.

(** The nearest number with 53 significant bits, ties to the even
    mantissa, before the range check. *)
Definition round_double (q : Q) : Q :=
  if Qeq_bool q 0 then 0%Q
  else Qred (inject_Z (round_half_even (q / 2 ^ ulp_exp q)) * 2 ^ ulp_exp q).

(** [a / b] on integers: true division. The result is the correctly
    rounded quotient; it is too large for a float when it rounds to
    [2^1024] or more. *)
Definition truediv (a b : Z) : outcome Q :=
  if b =? 0 then Raise ZeroDivisionError
  else
    let x := round_double (Qred (inject_Z a / inject_Z b)) in
    if Qle_bool (2 ^ 1024) (Qabs x) then Raise OverflowError else Return x.

(** [x < y] and [x >= y] on numbers. *)
Definition lt (x y : Q) : bool := negb (Qle_bool y x).
Definition ge (x y : Q) : bool := Qle_bool y x.

(** [round(x, 2)]: the number with two decimals nearest to the float, ties
    to the even last digit. *)
Definition round2 (x : Q) : Q :=
  Qred (inject_Z (round_half_even (x * 100)) / 100).

End Py.

Global Instance outcome_ret : MRet Py.outcome := @Py.Return.
Global Instance outcome_bind : MBind Py.outcome := λ A B k m, Py.bind m k.

(** ** The question bank and the published scale *)

Definition question (id text factor : string) : gmap string string :=
  <["factor" := factor]> (<["text" := text]> (<["id" := id]> ∅)).

Definition QUESTIONS : list (gmap string string) :=
  [ question "A1" "I prefer not to show a partner how I feel deep down." "avoidance";
    question "A2" "I find it difficult to depend on close others." "avoidance";
    question "A3" "I don't feel comfortable opening up to romantic partners." "avoidance";
    question "A4" "I prefer not to be too close to others." "avoidance";
    question "A5" "It's important for me to feel independent from others." "avoidance";
    question "A6" "I want to get close, but I keep people at arm’s length." "avoidance";
    question "X1" "I worry about being abandoned." "anxiety";
    question "X2" "I often worry my partner doesn't really love me." "anxiety";
    question "X3" "I need a lot of reassurance from close others." "anxiety";
    question "X4" "I worry that romantic partners won’t care as much as I do." "anxiety";
    question "X5" "I get frustrated if I don't get the closeness I want." "anxiety";
    question "X6" "I fear being alone more than most people." "anxiety" ].

Record Citation := {
  cit_name : string;
  cit_authors : string;
  cit_year : Z;
  cit_link : string
}.

Record ScaleInfo := {
  scale_min : Z;
  scale_max : Z;
  scale_labels : gmap Z string;
  scale_citation : Citation
}.

Definition SCALE_INFO : ScaleInfo := {|
  scale_min := 1;
  scale_max := 7;
  scale_labels :=
    <[7 := "Strongly agree"]> (<[4 := "Neutral"]> (<[1 := "Strongly disagree"]> ∅));
  scale_citation := {|
    cit_name := "ECR-R (Experiences in Close Relationships – Revised)";
    cit_authors := "Fraley, Waller, & Brennan";
    cit_year := 2000;
    cit_link := "https://labs.psychology.illinois.edu/~rcfraley/measures/ecrr.htm"
  |}
|}.

(** ** classify_style *)

Definition Classification : Type := string * string * list string.

Definition classify_style (anxiety avoidance : Q) : Classification :=
  let thr : Q := 4%Q in
  if Py.lt anxiety thr && Py.lt avoidance thr then
    ("Secure",
     "~50% of adults in community samples",
     [ "Maintain open communication and healthy boundaries.";
       "Continue investing in supportive relationships.";
       "Practice self-reflection to keep patterns secure under stress." ])
  else if Py.ge anxiety thr && Py.lt avoidance thr then
    ("Anxious (Preoccupied)",
     "~20%",
     [ "Build self-soothing routines (breathing, grounding).";
       "Communicate needs clearly without protest behaviors.";
       "Seek consistent, responsive partners or therapists." ])
  else if Py.lt anxiety thr && Py.ge avoidance thr then
    ("Avoidant (Dismissive)",
     "~25%",
     [ "Practice expressing needs and accepting help.";
       "Experiment with gradual intimacy and repair attempts.";
       "Reflect on autonomy vs. connection to find balance." ])
  else
    ("Fearful-Avoidant (Disorganized)",
     "~5–10%",
     [ "Work on trauma-informed stabilization with a professional.";
       "Develop consistent routines for safety and connection.";
       "Use titrated exposure to intimacy with trusted others." ]).

Definition style_of (c : Classification) : string := c.1.1.

(** ** Answers and compute_scores *)

(** Modelled from the spec: [schemas.QuizAnswer] is not part of [main.py];
    the specification gives it the fields [question_id] (a string) and
    [score] (a number that no code of [main.py] restricts to the scale). *)
Record QuizAnswer := {
  question_id : string;
  score : Z
}.

(** [{q["id"]: q for q in qs}]: later entries overwrite earlier ones. *)
Fixpoint dict_by_id (qs : list (gmap string string))
    (acc : gmap string (gmap string string))
    : Py.outcome (gmap string (gmap string string)) :=
  match qs with
  | [] => mret acc
  | q :: qs' => k ← Py.getitem q "id"; dict_by_id qs' (<[k := q]> acc)
  end.

(** The body of [for ans in answers] of [compute_scores]. *)
Fixpoint collect (qmap : gmap string (gmap string string))
    (answers : list QuizAnswer) (factor_scores : gmap string (list Z))
    : Py.outcome (gmap string (list Z)) :=
  match answers with
  | [] => mret factor_scores
  | ans :: rest =>
      if negb (Py.contains qmap (question_id ans)) then
        Py.Raise (Py.HTTPException 400
                    ("Unknown question id: " +:+ question_id ans))
      else
        q ← Py.getitem qmap (question_id ans);
        factor ← Py.getitem q "factor";
        bucket ← Py.getitem factor_scores factor;
        collect qmap rest (<[factor := bucket ++ [score ans]]> factor_scores)
  end.

Definition compute_scores (answers : list QuizAnswer) : Py.outcome (Q * Q) :=
  let factor_scores : gmap string (list Z) :=
    <["avoidance" := []]> (<["anxiety" := []]> ∅) in
  qmap ← dict_by_id QUESTIONS ∅;
  factor_scores ← collect qmap answers factor_scores;
  xs ← Py.getitem factor_scores "anxiety";
  xs' ← Py.getitem factor_scores "anxiety";
  anxiety ← Py.truediv (Py.sum xs) (Z.max 1 (Py.len xs'));
  ys ← Py.getitem factor_scores "avoidance";
  ys' ← Py.getitem factor_scores "avoidance";
  avoidance ← Py.truediv (Py.sum ys) (Z.max 1 (Py.len ys'));
  mret (anxiety, avoidance).

(** ** get_questions *)

Record QuestionsResponse := {
  questions : list (gmap string string);
  scale : ScaleInfo
}.

(** [{"id": q["id"], "text": q["text"]}] *)
Definition question_item (q : gmap string string)
    : Py.outcome (gmap string string) :=
  i ← Py.getitem q "id";
  t ← Py.getitem q "text";
  mret (<["text" := t]> (<["id" := i]> ∅)).

(** [[f(q) for q in qs]] *)
Fixpoint comprehension {A B} (f : A → Py.outcome B) (qs : list A)
    : Py.outcome (list B) :=
  match qs with
  | [] => mret []
  | q :: qs' => r ← f q; rs ← comprehension f qs'; mret (r :: rs)
  end.

Definition get_questions : Py.outcome QuestionsResponse :=
  qs ← comprehension question_item QUESTIONS;
  mret {| questions := qs; scale := SCALE_INFO |}.

(** ** submit_quiz *)

(** A value of a [meta] dictionary. *)
Inductive pyval : Type :=
| PNone
| PBool (b : bool)
| PInt (z : Z)
| PStr (s : string).

Record SubmitPayload := {
  answers : list QuizAnswer;
  meta : gmap string pyval
}.

(** Modelled from the spec: [schemas.QuizResult] is not part of [main.py];
    the specification lists its fields, the two scores being numbers. *)
Record QuizResult := {
  qr_answers : list QuizAnswer;
  qr_anxiety_score : Q;
  qr_avoidance_score : Q;
  qr_style : string;
  qr_prevalence : string;
  qr_recommendations : list string;
  qr_meta : gmap string pyval
}.

Record Response := {
  style : string;
  anxiety_score : Q;
  avoidance_score : Q;
  prevalence : string;
  recommendations : list string;
  explanation : string
}.

(** What a request does that can be observed besides its response. *)
Inductive event : Type :=
| Constructed (r : QuizResult)
| CreateDocument (collection_name : string) (r : QuizResult).

Record World (Store : Type) := {
  trace : list event;
  store : Store
}.
Arguments trace {Store} _.
Arguments store {Store} _.

(** [d or {}] *)
Definition or_empty {V} (d : gmap string V) : gmap string V :=
  if bool_decide (size d = 0%nat) then ∅ else d.

Section Submit.

Context {Store : Type}.

(** [database.create_document] is not part of [main.py]: it is a
    parameter that, from a collection name and a record, either returns an
    identifier or raises, and may change the store in both cases. *)
Variable create_document :
  string → QuizResult → Store → Py.outcome string * Store.

Definition submit_quiz (payload : SubmitPayload) (w : World Store)
    : Py.outcome Response * World Store :=
  match compute_scores (answers payload) with
  | Py.Raise e => (Py.Raise e, w)
  | Py.Return (anxiety, avoidance) =>
      let '(style, prevalence, recs) := classify_style anxiety avoidance in
      let result := {|
        qr_answers := answers payload;
        qr_anxiety_score := anxiety;
        qr_avoidance_score := avoidance;
        qr_style := style;
        qr_prevalence := prevalence;
        qr_recommendations := recs;
        qr_meta := or_empty (meta payload)
      |} in
      let w1 := {| trace := trace w ++ [Constructed result];
                   store := store w |} in
      (* try: create_document("quizresult", result) *)
      let '(r, st) := create_document "quizresult" result (store w1) in
      let w2 := {| trace := trace w1 ++ [CreateDocument "quizresult" result];
                   store := st |} in
      let response := {|
        style := style;
        anxiety_score := Py.round2 anxiety;
        avoidance_score := Py.round2 avoidance;
        prevalence := prevalence;
        recommendations := recs;
        explanation := "Scores are computed on two dimensions (anxiety and avoidance) derived from the validated ECR-R measure."
      |} in
      match r with
      | Py.Return _ => (Py.Return response, w2)
      | Py.Raise _ => (* except Exception: pass *) (Py.Return response, w2)
      end
  end.

End Submit.

(** * Specification-side definitions *)

Global Instance Qlt_dec (x y : Q) : Decision (x < y)%Q.
Proof.
  destruct (Qlt_le_dec x y) as [H|H]; [left; exact H | right].
  intros H'. exact (Qlt_not_le _ _ H' H).
Defined.

(** The decision table of the specification, keyed by the answers to
    "anxiety < T" and "avoidance < T". *)
Definition decision_table (anxiety_low avoidance_low : bool) : string :=
  match anxiety_low, avoidance_low with
  | true, true => "Secure"
  | true, false => "Avoidant (Dismissive)"
  | false, true => "Anxious (Preoccupied)"
  | false, false => "Fearful-Avoidant (Disorganized)"
  end.

(** The ids of the bank are those of its questions; a question of the bank
    with a given id and factor witnesses that the id has that factor. *)
Definition in_bank (qid : string) : Prop :=
  Exists (λ q, q !! "id" = Some qid) QUESTIONS.

Definition has_factor (factor qid : string) : Prop :=
  Exists (λ q, q !! "id" = Some qid ∧ q !! "factor" = Some factor) QUESTIONS.

Global Instance in_bank_dec qid : Decision (in_bank qid).
Proof. unfold in_bank. apply _. Defined.

Global Instance has_factor_dec factor qid : Decision (has_factor factor qid).
Proof. unfold has_factor. apply _. Defined.

(** The dictionary [qmap] that [compute_scores] builds on every call. *)
Definition bank_map : gmap string (gmap string string) :=
  match dict_by_id QUESTIONS ∅ with
  | Py.Return m => m
  | Py.Raise _ => ∅
  end.

Definition two_factors (q : gmap string string) : Prop :=
  q !! "factor" = Some "anxiety" ∨ q !! "factor" = Some "avoidance".

(** The scores of the answers whose question has the given factor, in the
    order of the answers. *)
Definition scores_for (factor : string) (answers : list QuizAnswer) : list Z :=
  score <$> filter (λ a, has_factor factor (question_id a)) answers.

Definition valid_ids (answers : list QuizAnswer) : Prop :=
  Forall (λ a, in_bank (question_id a)) answers.

(** The arithmetic mean of a non-empty list of integers. *)
Definition arithmetic_mean (l : list Z) : Q :=
  inject_Z (foldr Z.add 0 l) / inject_Z (Z.of_nat (length l)).

(** What [compute_scores] computes from one bucket. *)
Definition bucket_mean (l : list Z) : Py.outcome Q :=
  Py.truediv (Py.sum l) (Z.max 1 (Py.len l)).

(** The record and the response that [submit_quiz] builds from a payload
    and the two scores. *)
Definition quiz_result (payload : SubmitPayload) (anxiety avoidance : Q)
    : QuizResult :=
  let c := classify_style anxiety avoidance in
  {| qr_answers := answers payload;
     qr_anxiety_score := anxiety;
     qr_avoidance_score := avoidance;
     qr_style := c.1.1;
     qr_prevalence := c.1.2;
     qr_recommendations := c.2;
     qr_meta := or_empty (meta payload) |}.

Definition quiz_response (anxiety avoidance : Q) : Response :=
  let c := classify_style anxiety avoidance in
  {| style := c.1.1;
     anxiety_score := Py.round2 anxiety;
     avoidance_score := Py.round2 avoidance;
     prevalence := c.1.2;
     recommendations := c.2;
     explanation := "Scores are computed on two dimensions (anxiety and avoidance) derived from the validated ECR-R measure." |}.

(** Two persistence collaborators: one that is not configured and raises on
    every call, and one that appends the record to a list and returns its
    position. *)
Definition unconfigured_db (collection_name : string) (r : QuizResult)
    (st : unit) : Py.outcome string * unit :=
  (Py.Raise (Py.Exception "Database not available"), st).

Definition list_db (collection_name : string) (r : QuizResult)
    (st : list (string * QuizResult)) : Py.outcome string * list (string * QuizResult) :=
  (Py.Return "stored", st ++ [(collection_name, r)]).

Definition answer (qid : string) (s : Z) : QuizAnswer :=
  {| question_id := qid; score := s |}.

Definition empty_world {Store} (st : Store) : World Store :=
  {| trace := []; store := st |}.

(** A number with two decimals that is nearest to [x]. *)
Definition rounded_to_2dp (x r : Q) : Prop :=
  ∃ k : Z, (r == k # 100)%Q ∧ (Qabs (r - x) <= 1 # 200)%Q.

(** What a client sees of a question: its id and its text, and no other
    field. *)
Definition exposes (q item : gmap string string) : Prop :=
  is_Some (q !! "id")
  ∧ item !! "id" = q !! "id"
  ∧ item !! "text" = q !! "text"
  ∧ dom item = {["id"; "text"]}
  ∧ item !! "factor" = None.

(** Exchanging the two axes exchanges the two styles that are high on one
    axis only. *)
Definition swap_axes (style : string) : string :=
  if decide (style = "Anxious (Preoccupied)") then "Avoidant (Dismissive)"
  else if decide (style = "Avoidant (Dismissive)") then "Anxious (Preoccupied)"
  else style.

(** A bucket of integer scores is on the low side of the threshold when it
    is empty or its sum is below four times its size. *)
Definition bucket_low (l : list Z) : Prop :=
  l = [] ∨ foldr Z.add 0 l < 4 * Z.of_nat (length l).

Global Instance bucket_low_dec l : Decision (bucket_low l).
Proof. unfold bucket_low. apply _. Defined.

(** The id is one of those a listing shows. *)
Definition listed (items : list (gmap string string)) (qid : string) : Prop :=
  ∃ item, item ∈ items ∧ item !! "id" = Some qid.

(** The scores of the answers lie between two bounds. *)
Definition scores_between (lo hi : Z) (answers : list QuizAnswer) : Prop :=
  Forall (λ a, lo ≤ score a ≤ hi) answers.

Global Instance scores_between_dec lo hi answers :
  Decision (scores_between lo hi answers).
Proof. unfold scores_between. apply _. Defined.

(** A number is 0 or lies between two integers. *)
Definition zero_or_between (lo hi : Z) (x : Q) : Prop :=
  x = 0%Q ∨ (inject_Z lo <= x ∧ x <= inject_Z hi)%Q.


(** The finite doubles: a mantissa of at most 53 bits and an exponent of
    the binary64 format. *)
Definition is_double (x : Q) : Prop :=
  ∃ m e : Z, Z.abs m < 2 ^ 53 ∧ -1074 ≤ e ≤ 971
             ∧ (x == inject_Z m * 2 ^ e)%Q.

(** [x] is a double, and no double is nearer to [q]. *)
Definition nearest_double (q x : Q) : Prop :=
  is_double x ∧ ∀ d, is_double d → (Qabs (x - q) <= Qabs (d - q))%Q.

(** The scores are of magnitude at most [2^1023], so that no mean of them
    is beyond the range of a double. *)
Definition scores_in_double_range (answers : list QuizAnswer) : Prop :=
  scores_between (- 2 ^ 1023) (2 ^ 1023) answers.

Global Instance scores_in_double_range_dec answers :
  Decision (scores_in_double_range answers).
Proof. unfold scores_in_double_range. apply _. Defined.

(** The outcome is the client error of an unknown question id. *)
Definition rejected {A} (o : Py.outcome A) : Prop :=
  ∃ detail, o = Py.Raise (Py.HTTPException 400 detail).

(** * Properties *)

(** ** Numbers *)

Lemma py_lt_spec (x y : Q) : Py.lt x y = true ↔ (x < y)%Q.
Proof.
  unfold Py.lt. rewrite negb_true_iff, <- not_true_iff_false, Qle_bool_iff.
  split; [apply Qnot_le_lt | apply Qlt_not_le].
Qed.

Lemma py_ge_spec (x y : Q) : Py.ge x y = true ↔ (y <= x)%Q.
Proof. apply Qle_bool_iff. Qed.

Lemma py_ge_not_lt (x y : Q) : Py.ge x y = negb (Py.lt x y).
Proof. unfold Py.lt, Py.ge. by rewrite negb_involutive. Qed.

Lemma py_lt_decide (x y : Q) : Py.lt x y = bool_decide (x < y)%Q.
Proof.
  case_bool_decide as H.
  - by apply py_lt_spec.
  - apply not_true_iff_false. by rewrite py_lt_spec.
Qed.

(** ** Doubles *)

Section Doubles.

Local Open Scope Q_scope.

Lemma pow2_pos (k : Z) : 0 < 2 ^ k.
Proof. by apply Qpower_0_lt. Qed.

Lemma pow2_nonzero (k : Z) : ¬ 2 ^ k == 0.
Proof. pose proof (pow2_pos k). lra. Qed.

Lemma pow2_add (a b : Z) : 2 ^ (a + b) == 2 ^ a * 2 ^ b.
Proof. by apply Qpower_plus. Qed.

Lemma pow2_sub (a b : Z) : 2 ^ (a - b) == 2 ^ a / 2 ^ b.
Proof. by apply Qpower_minus. Qed.

Lemma pow2_le (a b : Z) : (a <= b)%Z → 2 ^ a <= 2 ^ b.
Proof. intros H. by apply Qpower_le_compat_l. Qed.

Lemma pow2_lt (a b : Z) : (a < b)%Z → 2 ^ a < 2 ^ b.
Proof. intros H. by apply Qpower_lt_compat_l. Qed.

Lemma pow2_lt_inv (a b : Z) : 2 ^ a < 2 ^ b → (a < b)%Z.
Proof. intros H. by apply (Qpower_lt_compat_l_inv 2). Qed.

Lemma pow2_Z (n : Z) : (0 <= n)%Z → inject_Z (2 ^ n) == 2 ^ n.
Proof. intros H. by rewrite Zpower_Qpower. Qed.

Lemma frac_lt (n d p b : Z) :
  (0 < d)%Z → (0 < b)%Z → (n * b < p * d)%Z →
  inject_Z n / inject_Z d < inject_Z p / inject_Z b.
Proof.
  intros Hd Hb H.
  assert (0 < inject_Z d) as Hd' by (by rewrite <- (Zlt_Qlt 0)).
  assert (0 < inject_Z b) as Hb' by (by rewrite <- (Zlt_Qlt 0)).
  apply Qlt_shift_div_r; [done|].
  assert (inject_Z p / inject_Z b * inject_Z d
          == inject_Z p * inject_Z d / inject_Z b) as -> by (field; lra).
  apply Qlt_shift_div_l; [done|].
  by rewrite <- !inject_Z_mult, <- Zlt_Qlt.
Qed.

Lemma frac_le (n d p b : Z) :
  (0 < d)%Z → (0 < b)%Z → (n * b <= p * d)%Z →
  inject_Z n / inject_Z d <= inject_Z p / inject_Z b.
Proof.
  intros Hd Hb H.
  assert (0 < inject_Z d) as Hd' by (by rewrite <- (Zlt_Qlt 0)).
  assert (0 < inject_Z b) as Hb' by (by rewrite <- (Zlt_Qlt 0)).
  apply Qle_shift_div_r; [done|].
  assert (inject_Z p / inject_Z b * inject_Z d
          == inject_Z p * inject_Z d / inject_Z b) as -> by (field; lra).
  apply Qle_shift_div_l; [done|].
  by rewrite <- !inject_Z_mult, <- Zle_Qle.
Qed.

Lemma Qabs_frac (q : Q) :
  Qabs q == inject_Z (Z.abs (Qnum q)) / inject_Z (Zpos (Qden q)).
Proof. destruct q as [n d]. simpl. apply Qmake_Qdiv. Qed.

Lemma binade_spec (q : Q) :
  ¬ q == 0 → 2 ^ Py.binade q <= Qabs q ∧ Qabs q < 2 ^ (Py.binade q + 1).
Proof.
  intros Hq. unfold Py.binade.
  set (n := Z.abs (Qnum q)). set (d := Zpos (Qden q)).
  assert (0 < n)%Z as Hn.
  { subst n. destruct q as [[|p|p] dq]; simpl; try lia.
    destruct Hq. reflexivity. }
  assert (0 < d)%Z as Hd by (subst d; lia).
  destruct (Z.log2_spec n Hn) as [Hn1 Hn2].
  destruct (Z.log2_spec d Hd) as [Hd1 Hd2].
  pose proof (Z.log2_nonneg n) as Ha. pose proof (Z.log2_nonneg d) as Hb.
  set (a := Z.log2 n) in *. set (b := Z.log2 d) in *.
  assert (Qabs q < 2 ^ (a - b + 1)) as Hup.
  { rewrite Qabs_frac. fold n d.
    replace (a - b + 1)%Z with (Z.succ a - b)%Z by lia.
    rewrite pow2_sub, <- !pow2_Z by lia.
    apply frac_lt; [done| |].
    - apply Z.pow_pos_nonneg; lia.
    - apply Z.le_lt_trans with (n * d)%Z; [|nia].
      apply Z.mul_le_mono_nonneg_l; lia. }
  assert (2 ^ (a - b - 1) <= Qabs q) as Hlo.
  { rewrite Qabs_frac. fold n d.
    replace (a - b - 1)%Z with (a - Z.succ b)%Z by lia.
    rewrite pow2_sub, <- !pow2_Z by lia.
    apply frac_le; [|done|].
    - apply Z.pow_pos_nonneg; lia.
    - apply Z.le_trans with (n * d)%Z; [nia|].
      apply Z.mul_le_mono_nonneg_l; lia. }
  destruct (Qle_bool (2 ^ (a - b)) (Qabs q)) eqn:Hc.
  - apply Qle_bool_iff in Hc. done.
  - split; [done|].
    replace (a - b - 1 + 1)%Z with (a - b)%Z by lia.
    apply Qnot_le_lt. intros H. apply Qle_bool_iff in H. congruence.
Qed.

Lemma round_half_even_near (x : Q) :
  Qabs (inject_Z (Py.round_half_even x) - x) <= 1 # 2.
Proof.
  unfold Py.round_half_even.
  pose proof (Qfloor_le x) as Hlo. pose proof (Qlt_floor x) as Hhi.
  rewrite inject_Z_plus in Hhi. change (inject_Z 1) with 1%Q in Hhi.
  apply Qabs_Qle_condition.
  destruct (x - inject_Z (Qfloor x) ?= 1 # 2)%Q eqn:Hc.
  - apply Qeq_alt in Hc.
    destruct (Z.even (Qfloor x)); rewrite ?inject_Z_plus;
      change (inject_Z 1) with 1%Q; split; lra.
  - apply Qlt_alt in Hc. split; lra.
  - apply Qgt_alt in Hc. rewrite inject_Z_plus.
    change (inject_Z 1) with 1%Q. split; lra.
Qed.

Lemma round_half_even_ge (z : Z) (x : Q) :
  inject_Z z <= x → (z <= Py.round_half_even x)%Z.
Proof.
  intros H. pose proof (round_half_even_near x) as Hn.
  apply Qabs_Qle_condition in Hn as [Hlo _].
  assert (inject_Z z - (1 # 2) <= inject_Z (Py.round_half_even x)) as Hq by lra.
  unfold Qle in Hq. simpl in Hq. lia.
Qed.

Lemma round_half_even_le (z : Z) (x : Q) :
  x <= inject_Z z → (Py.round_half_even x <= z)%Z.
Proof.
  intros H. pose proof (round_half_even_near x) as Hn.
  apply Qabs_Qle_condition in Hn as [_ Hhi].
  assert (inject_Z (Py.round_half_even x) <= inject_Z z + (1 # 2)) as Hq by lra.
  unfold Qle in Hq. simpl in Hq. lia.
Qed.

(** No integer is nearer. *)
Lemma round_half_even_nearest (z : Z) (x : Q) :
  Qabs (inject_Z (Py.round_half_even x) - x) <= Qabs (inject_Z z - x).
Proof.
  pose proof (round_half_even_near x) as Hn.
  destruct (Z.eq_dec z (Py.round_half_even x)) as [->|Hne]; [apply Qle_refl|].
  apply Qle_trans with (1 # 2); [done|].
  apply Qabs_Qle_condition in Hn as [Hlo Hhi].
  set (g := Py.round_half_even x) in *.
  destruct (Z_lt_le_dec z g) as [Hlt|Hge].
  - assert (z + 1 <= g)%Z as Hz by lia.
    rewrite Zle_Qle, inject_Z_plus in Hz. change (inject_Z 1) with 1 in Hz.
    rewrite Qabs_neg by lra. lra.
  - assert (g + 1 <= z)%Z as Hz by lia.
    rewrite Zle_Qle, inject_Z_plus in Hz. change (inject_Z 1) with 1 in Hz.
    rewrite Qabs_pos by lra. lra.
Qed.

Lemma round_double_0 (q : Q) : q == 0 → Py.round_double q = 0.
Proof.
  intros H. unfold Py.round_double.
  by rewrite (proj2 (Qeq_bool_iff q 0) H).
Qed.

Lemma round_double_grid (q : Q) :
  ¬ q == 0 →
  Py.round_double q
  == inject_Z (Py.round_half_even (q / 2 ^ Py.ulp_exp q)) * 2 ^ Py.ulp_exp q.
Proof.
  intros H. unfold Py.round_double.
  destruct (Qeq_bool q 0) eqn:Hc.
  - by apply Qeq_bool_iff in Hc.
  - apply Qred_correct.
Qed.

(** Rounding to a double does not cross a point of the grid it rounds to. *)
Lemma round_double_ge_grid (z : Z) (q : Q) :
  ¬ q == 0 →
  inject_Z z * 2 ^ Py.ulp_exp q <= q → inject_Z z * 2 ^ Py.ulp_exp q <= Py.round_double q.
Proof.
  intros Hq H. rewrite round_double_grid by done.
  pose proof (pow2_pos (Py.ulp_exp q)) as Hk.
  apply Qmult_le_compat_r; [|lra].
  rewrite <- Zle_Qle. apply round_half_even_ge.
  by apply Qle_shift_div_l.
Qed.

Lemma round_double_le_grid (z : Z) (q : Q) :
  ¬ q == 0 →
  q <= inject_Z z * 2 ^ Py.ulp_exp q → Py.round_double q <= inject_Z z * 2 ^ Py.ulp_exp q.
Proof.
  intros Hq H. rewrite round_double_grid by done.
  pose proof (pow2_pos (Py.ulp_exp q)) as Hk.
  apply Qmult_le_compat_r; [|lra].
  rewrite <- Zle_Qle. apply round_half_even_le.
  by apply Qle_shift_div_r.
Qed.

(** No point of the grid is nearer. *)
Lemma round_double_nearest_grid (z : Z) (q : Q) :
  ¬ q == 0 →
  Qabs (Py.round_double q - q) <= Qabs (inject_Z z * 2 ^ Py.ulp_exp q - q).
Proof.
  intros Hq. rewrite round_double_grid by done.
  pose proof (pow2_pos (Py.ulp_exp q)) as Hk.
  set (k := Py.ulp_exp q) in *. set (g := Py.round_half_even (q / 2 ^ k)).
  assert (∀ y : Z, inject_Z y * 2 ^ k - q
                   == (inject_Z y - q / 2 ^ k) * 2 ^ k) as Heq.
  { intros y. field. lra. }
  rewrite !Heq, !Qabs_Qmult, (Qabs_pos (2 ^ k)) by lra.
  apply Qmult_le_compat_r; [|lra].
  apply round_half_even_nearest.
Qed.

Lemma coarser_grid (m e k : Z) :
  (k <= e)%Z → inject_Z m * 2 ^ e == inject_Z (m * 2 ^ (e - k)) * 2 ^ k.
Proof.
  intros H. rewrite inject_Z_mult, pow2_Z by lia.
  replace e with ((e - k) + k)%Z at 1 by lia.
  rewrite pow2_add. ring.
Qed.

Lemma Qabs_inject_Z (z : Z) : Qabs (inject_Z z) = inject_Z (Z.abs z).
Proof. reflexivity. Qed.

Lemma ulp_exp_ge (q : Q) : (-1074 <= Py.ulp_exp q)%Z.
Proof. unfold Py.ulp_exp. lia. Qed.

(** A double that is not below the binade of [q] is on the grid of [q]. *)
Lemma double_on_grid (d q : Q) :
  is_double d →
  (Py.binade q < -1022)%Z ∨ 2 ^ Py.binade q <= Qabs d →
  ∃ z : Z, d == inject_Z z * 2 ^ Py.ulp_exp q.
Proof.
  intros (m & e & Hm & He & Hd) Hcase.
  exists (m * 2 ^ (e - Py.ulp_exp q))%Z. rewrite Hd. apply coarser_grid.
  unfold Py.ulp_exp. destruct Hcase as [Hlow|Hge]; [lia|].
  destruct (Z_le_gt_dec (Py.binade q) (-1022)) as [Hle|Hgt]; [lia|].
  rewrite Z.max_l by lia.
  assert (2 ^ Py.binade q < 2 ^ (53 + e)) as Hlt.
  { apply Qle_lt_trans with (Qabs d); [done|].
    rewrite Hd, Qabs_Qmult, Qabs_inject_Z, (Qabs_pos (2 ^ e))
      by (pose proof (pow2_pos e); lra).
    rewrite pow2_add. apply Qmult_lt_compat_r; [apply pow2_pos|].
    rewrite <- pow2_Z by lia. by rewrite <- Zlt_Qlt. }
  apply pow2_lt_inv in Hlt. lia.
Qed.

Lemma binade_on_grid (q : Q) :
  (-1022 <= Py.binade q)%Z →
  2 ^ Py.binade q == inject_Z (2 ^ 52) * 2 ^ Py.ulp_exp q.
Proof.
  intros H. unfold Py.ulp_exp. rewrite Z.max_l by lia.
  rewrite pow2_Z by lia. rewrite <- pow2_add. by replace (52 + (Py.binade q - 52))%Z with (Py.binade q) by lia.
Qed.

(** Among the doubles none is nearer to [q] than [Py.round_double q]. *)
Lemma round_double_nearest (d q : Q) :
  is_double d → Qabs (Py.round_double q - q) <= Qabs (d - q).
Proof.
  intros Hd. destruct (Qeq_dec q 0) as [Hq|Hq].
  { rewrite (round_double_0 _ Hq), Hq.
    assert (0 - 0 == 0) as -> by ring. apply Qabs_nonneg. }
  destruct (Z_lt_le_dec (Py.binade q) (-1022)) as [Hlow|Hnorm].
  { destruct (double_on_grid d q Hd) as [z ->]; [by left|].
    by apply round_double_nearest_grid. }
  destruct (Qlt_le_dec (Qabs d) (2 ^ Py.binade q)) as [Hsmall|Hbig].
  2:{ destruct (double_on_grid d q Hd) as [z ->]; [by right|].
      by apply round_double_nearest_grid. }
  destruct (binade_spec q Hq) as [Hlo _].
  pose proof (Qle_Qabs d) as Hd1.
  pose proof (Qle_Qabs (- d)) as Hd2. rewrite Qabs_opp in Hd2.
  destruct (Qlt_le_dec q 0) as [Hneg|Hpos].
  - rewrite Qabs_neg in Hlo by lra.
    apply Qle_trans with (Qabs (inject_Z (- 2 ^ 52) * 2 ^ Py.ulp_exp q - q)).
    { by apply round_double_nearest_grid. }
    rewrite inject_Z_opp.
    assert (- inject_Z (2 ^ 52) * 2 ^ Py.ulp_exp q == - 2 ^ Py.binade q) as ->.
    { rewrite (binade_on_grid q) by done. ring. }
    rewrite Qabs_pos by lra. apply Qle_trans with (d - q); [lra|].
    apply Qle_Qabs.
  - rewrite Qabs_pos in Hlo by lra.
    apply Qle_trans with (Qabs (inject_Z (2 ^ 52) * 2 ^ Py.ulp_exp q - q)).
    { by apply round_double_nearest_grid. }
    rewrite <- (binade_on_grid q) by done.
    rewrite Qabs_neg by lra. apply Qle_trans with (- (d - q)); [lra|].
    rewrite <- Qabs_opp. apply Qle_Qabs.
Qed.

(** Rounding to a double does not cross a double. *)
Lemma round_double_le_double (b q : Q) :
  is_double b → q <= b → Py.round_double q <= b.
Proof.
  intros Hb H. destruct (Qeq_dec q 0) as [Hq|Hq].
  { rewrite (round_double_0 _ Hq). lra. }
  destruct (binade_spec q Hq) as [Hlo _].
  assert ((Py.binade q < -1022)%Z ∨ 2 ^ Py.binade q <= Qabs b
          ∨ ((-1022 <= Py.binade q)%Z ∧ Qabs b < 2 ^ Py.binade q)) as Hcase.
  { destruct (Z_lt_le_dec (Py.binade q) (-1022)); [by left|right].
    destruct (Qlt_le_dec (Qabs b) (2 ^ Py.binade q)); [by right | by left]. }
  destruct Hcase as [Hc|[Hc|[Hnorm Hsmall]]].
  - destruct (double_on_grid b q Hb) as [z Hz]; [by left|].
    rewrite Hz in *. by apply round_double_le_grid.
  - destruct (double_on_grid b q Hb) as [z Hz]; [by right|].
    rewrite Hz in *. by apply round_double_le_grid.
  - pose proof (Qle_Qabs b) as Hb1.
    pose proof (Qle_Qabs (- b)) as Hb2. rewrite Qabs_opp in Hb2.
    assert (q < 0) as Hneg.
    { apply Qnot_le_lt. intros Hpos. rewrite Qabs_pos in Hlo by done. lra. }
    rewrite Qabs_neg in Hlo by lra.
    apply Qle_trans with (inject_Z (- 2 ^ 52) * 2 ^ Py.ulp_exp q).
    + apply round_double_le_grid; [done|].
      rewrite inject_Z_opp.
      assert (- inject_Z (2 ^ 52) * 2 ^ Py.ulp_exp q == - 2 ^ Py.binade q) as ->.
      { rewrite (binade_on_grid q) by done. ring. }
      lra.
    + rewrite inject_Z_opp.
      assert (- inject_Z (2 ^ 52) * 2 ^ Py.ulp_exp q == - 2 ^ Py.binade q) as ->.
      { rewrite (binade_on_grid q) by done. ring. }
      lra.
Qed.

Lemma round_double_ge_double (b q : Q) :
  is_double b → b <= q → b <= Py.round_double q.
Proof.
  intros Hb H. destruct (Qeq_dec q 0) as [Hq|Hq].
  { rewrite (round_double_0 _ Hq). lra. }
  destruct (binade_spec q Hq) as [Hlo _].
  assert ((Py.binade q < -1022)%Z ∨ 2 ^ Py.binade q <= Qabs b
          ∨ ((-1022 <= Py.binade q)%Z ∧ Qabs b < 2 ^ Py.binade q)) as Hcase.
  { destruct (Z_lt_le_dec (Py.binade q) (-1022)); [by left|right].
    destruct (Qlt_le_dec (Qabs b) (2 ^ Py.binade q)); [by right | by left]. }
  destruct Hcase as [Hc|[Hc|[Hnorm Hsmall]]].
  - destruct (double_on_grid b q Hb) as [z Hz]; [by left|].
    rewrite Hz in *. by apply round_double_ge_grid.
  - destruct (double_on_grid b q Hb) as [z Hz]; [by right|].
    rewrite Hz in *. by apply round_double_ge_grid.
  - pose proof (Qle_Qabs b) as Hb1.
    pose proof (Qle_Qabs (- b)) as Hb2. rewrite Qabs_opp in Hb2.
    assert (0 < q) as Hpos.
    { apply Qnot_le_lt. intros Hneg. rewrite Qabs_neg in Hlo by done. lra. }
    rewrite Qabs_pos in Hlo by lra.
    apply Qle_trans with (inject_Z (2 ^ 52) * 2 ^ Py.ulp_exp q).
    + rewrite <- (binade_on_grid q) by done. lra.
    + apply round_double_ge_grid; [done|].
      rewrite <- (binade_on_grid q) by done. lra.
Qed.

Lemma is_double_0 : is_double 0.
Proof. exists 0%Z, 0%Z. repeat split; try lia. Qed.

Lemma is_double_Z (n : Z) : (Z.abs n <= 2 ^ 53)%Z → is_double (inject_Z n).
Proof.
  intros H. destruct (Z.eq_dec (Z.abs n) (2 ^ 53)%Z) as [Heq|Hne].
  - exists (n / 2)%Z, 1%Z. split; [|split; [lia|]].
    + assert (n = 2 ^ 53 ∨ n = - 2 ^ 53)%Z as [->| ->] by lia; by vm_compute.
    + assert (n = 2 ^ 53 ∨ n = - 2 ^ 53)%Z as [->| ->] by lia; by vm_compute.
  - exists n, 0%Z. split; [lia|]. split; [lia|].
    change (2 ^ 0) with 1. ring.
Qed.

Lemma is_double_pow2 (e : Z) : (-1074 <= e <= 1023)%Z → is_double (2 ^ e).
Proof.
  intros H. destruct (Z_le_gt_dec e 971) as [Hle|Hgt].
  - exists 1%Z, e. split; [by vm_compute|]. split; [lia|].
    change (inject_Z 1) with 1. ring.
  - exists (2 ^ (e - 971))%Z, 971%Z. split; [|split; [lia|]].
    + rewrite Z.abs_eq by (apply Z.pow_nonneg; lia).
      apply Z.pow_lt_mono_r; lia.
    + rewrite pow2_Z by lia. rewrite <- pow2_add.
      by replace (e - 971 + 971)%Z with e by lia.
Qed.

Lemma is_double_opp (x : Q) : is_double x → is_double (- x).
Proof.
  intros (m & e & Hm & He & Hx). exists (- m)%Z, e.
  split; [lia|]. split; [done|]. rewrite Hx, inject_Z_opp. ring.
Qed.

(** A double is rounded to itself. *)
Lemma round_double_exact (d : Q) : is_double d → Py.round_double d == d.
Proof.
  intros Hd. pose proof (round_double_nearest d d Hd) as H.
  assert (d - d == 0) as Heq by ring. rewrite Heq in H.
  change (Qabs 0) with 0 in H. apply Qabs_Qle_condition in H. lra.
Qed.

(** What [Py.round_double] returns below the overflow threshold is a double. *)
Lemma round_double_is_double (q : Q) :
  Qabs (Py.round_double q) < 2 ^ 1024 → is_double (Py.round_double q).
Proof.
  intros Hlt. destruct (Qeq_dec q 0) as [Hq|Hq].
  { rewrite (round_double_0 _ Hq). apply is_double_0. }
  destruct (binade_spec q Hq) as [Hlo Hhi].
  pose proof (round_double_grid q Hq) as Hgrid.
  pose proof (pow2_pos (Py.ulp_exp q)) as Hk.
  set (k := Py.ulp_exp q) in *. set (g := Py.round_half_even (q / 2 ^ k)) in *.
  assert (Py.binade q + 1 <= k + 53)%Z as Hek by (subst k; unfold Py.ulp_exp; lia).
  assert (Qabs (q / 2 ^ k) < 2 ^ 53) as Hscaled.
  { unfold Qdiv. rewrite Qabs_Qmult, Qabs_Qinv, (Qabs_pos (2 ^ k)) by lra.
    apply Qlt_shift_div_r; [done|]. rewrite <- pow2_add.
    apply Qlt_le_trans with (2 ^ (Py.binade q + 1)); [done|].
    apply pow2_le. lia. }
  assert (- 2 ^ 53 <= g <= 2 ^ 53)%Z as Hg.
  { apply Qabs_Qlt_condition in Hscaled as [H1 H2]. subst g. split.
    - apply round_half_even_ge. rewrite inject_Z_opp, pow2_Z by lia. lra.
    - apply round_half_even_le. rewrite pow2_Z by lia. lra. }
  assert (Qabs (Py.round_double q) == inject_Z (Z.abs g) * 2 ^ k) as Habs.
  { rewrite Hgrid, Qabs_Qmult, Qabs_inject_Z, (Qabs_pos (2 ^ k)) by lra.
    reflexivity. }
  rewrite Habs in Hlt.
  destruct (Z.eq_dec (Z.abs g) (2 ^ 53)%Z) as [Hmax|Hnotmax].
  - (* the mantissa was rounded up to the next power of two *)
    rewrite Hmax, pow2_Z, <- pow2_add in Hlt by lia.
    apply pow2_lt_inv in Hlt.
    exists (g / 2)%Z, (k + 1)%Z. split; [|split].
    + assert (g = 2 ^ 53 ∨ g = - 2 ^ 53)%Z as [->| ->] by lia; by vm_compute.
    + pose proof (ulp_exp_ge q). fold k in H. lia.
    + rewrite Hgrid, pow2_add.
      assert (g = 2 * (g / 2))%Z as Hhalf.
      { assert (g = 2 ^ 53 ∨ g = - 2 ^ 53)%Z as [->| ->] by lia; by vm_compute. }
      rewrite Hhalf at 1. rewrite inject_Z_mult.
      change (inject_Z 2) with 2. change (2 ^ 1) with 2. ring.
  - exists g, k. split; [lia|]. split; [|done].
    split; [apply ulp_exp_ge|].
    destruct (Z_lt_le_dec (Py.binade q) (-1022)) as [Hsub|Hnorm].
    { subst k. unfold Py.ulp_exp. lia. }
    (* a normal number has a mantissa of at least 2^52 *)
    assert (k = Py.binade q - 52)%Z as Hkv by (subst k; unfold Py.ulp_exp; lia).
    assert (2 ^ 52 <= Qabs (q / 2 ^ k)) as Hbig.
    { unfold Qdiv. rewrite Qabs_Qmult, Qabs_Qinv, (Qabs_pos (2 ^ k)) by lra.
      apply Qle_shift_div_l; [done|]. rewrite <- pow2_add.
      by replace (52 + k)%Z with (Py.binade q) by lia. }
    assert (2 ^ 52 <= Z.abs g)%Z as Hgbig.
    { subst g. destruct (Qlt_le_dec (q / 2 ^ k) 0) as [Hneg|Hpos].
      - rewrite Qabs_neg in Hbig by lra.
        assert (Py.round_half_even (q / 2 ^ k) <= - 2 ^ 52)%Z; [|lia].
        apply round_half_even_le. rewrite inject_Z_opp, pow2_Z by lia. lra.
      - rewrite Qabs_pos in Hbig by lra.
        assert (2 ^ 52 <= Py.round_half_even (q / 2 ^ k))%Z; [|lia].
        apply round_half_even_ge. rewrite pow2_Z by lia. lra. }
    assert (2 ^ (52 + k) < 2 ^ 1024) as Hpow.
    { apply Qle_lt_trans with (inject_Z (Z.abs g) * 2 ^ k); [|done].
      rewrite pow2_add. apply Qmult_le_compat_r; [|lra].
      rewrite <- pow2_Z by lia. by rewrite <- Zle_Qle. }
    apply pow2_lt_inv in Hpow. lia.
Qed.

Global Instance is_double_proper : Proper (Qeq ==> iff) is_double.
Proof.
  intros x y Hxy. unfold is_double.
  split; intros (m & e & Hm & He & H); exists m, e;
    (split; [done|]; split; [done|]); by rewrite <- H || by rewrite H.
Qed.

End Doubles.

(** ** The style classifier *)

Lemma classify_style_table (a b : Q) :
  style_of (classify_style a b)
  = decision_table (bool_decide (a < 4)%Q) (bool_decide (b < 4)%Q).
Proof.
  unfold classify_style. rewrite !py_ge_not_lt, !py_lt_decide.
  by destruct (bool_decide (a < 4)%Q), (bool_decide (b < 4)%Q).
Qed.

Lemma decision_table_inj (x y x' y' : bool) :
  decision_table x y = decision_table x' y' → x = x' ∧ y = y'.
Proof. by destruct x, y, x', y'. Qed.

Lemma not_lt_iff_le (a t : Q) : ¬ (a < t)%Q ↔ (t <= a)%Q.
Proof. split; [apply Qnot_lt_le | intros H H'; exact (Qlt_not_le _ _ H' H)]. Qed.

(** C1. For all scores, [classify_style] follows the decision table with
    threshold 4 and a strict comparison for the low side: a score equal to
    the threshold is on the high side of its axis, (4, 4) is
    Fearful-Avoidant (Disorganized), and the four styles correspond to four
    regions that cover the plane and do not overlap. *)
Theorem classify_style_decision_table (anxiety avoidance : Q) :
  let s := style_of (classify_style anxiety avoidance) in
  s = decision_table (bool_decide (anxiety < 4)%Q)
                     (bool_decide (avoidance < 4)%Q)
  ∧ ((anxiety == 4)%Q →
       s = decision_table false (bool_decide (avoidance < 4)%Q))
  ∧ ((avoidance == 4)%Q →
       s = decision_table (bool_decide (anxiety < 4)%Q) false)
  ∧ style_of (classify_style 4 4) = "Fearful-Avoidant (Disorganized)"
  ∧ (s = "Secure" ↔ (anxiety < 4)%Q ∧ (avoidance < 4)%Q)
  ∧ (s = "Anxious (Preoccupied)" ↔ (4 <= anxiety)%Q ∧ (avoidance < 4)%Q)
  ∧ (s = "Avoidant (Dismissive)" ↔ (anxiety < 4)%Q ∧ (4 <= avoidance)%Q)
  ∧ (s = "Fearful-Avoidant (Disorganized)"
       ↔ (4 <= anxiety)%Q ∧ (4 <= avoidance)%Q).
Proof.
  intros s. subst s. rewrite classify_style_table.
  split; [done|]. split; [|split; [|split; [done|]]].
  - intros H. rewrite (bool_decide_eq_false_2 (anxiety < 4)%Q); [done|].
    rewrite H. apply Qlt_irrefl.
  - intros H. rewrite (bool_decide_eq_false_2 (avoidance < 4)%Q); [done|].
    rewrite H. apply Qlt_irrefl.
  - rewrite <- !not_lt_iff_le.
    repeat case_bool_decide; simpl;
      repeat split; first [done | tauto | intros [? ?]; tauto].
Qed.

(** C4, as the specification states it, does not hold: at anxiety 3.999 and
    avoidance 4.0 the style is not Anxious (Preoccupied). *)
Lemma classify_style_3999_4_is_not_anxious :
  style_of (classify_style (3999 # 1000) 4) = "Avoidant (Dismissive)"
  ∧ style_of (classify_style (3999 # 1000) 4) ≠ "Anxious (Preoccupied)".
Proof. split; [reflexivity | discriminate]. Qed.

(** C4, amended. At anxiety 3.999 and avoidance 4.0, [classify_style]
    returns the style Avoidant (Dismissive), with its prevalence and
    recommendations. *)
Theorem classify_style_3999_4_avoidant :
  classify_style (3999 # 1000) 4 =
    ("Avoidant (Dismissive)",
     "~25%",
     [ "Practice expressing needs and accepting help.";
       "Experiment with gradual intimacy and repair attempts.";
       "Reflect on autonomy vs. connection to find balance." ]).
Proof. reflexivity. Qed.

(** ** The question bank *)

Lemma dict_by_id_QUESTIONS : dict_by_id QUESTIONS ∅ = Py.Return bank_map.
Proof. vm_compute. reflexivity. Qed.

Lemma bank_map_sound :
  map_Forall (λ i q, q ∈ QUESTIONS ∧ q !! "id" = Some i ∧ two_factors q)
             bank_map.
Proof. apply (bool_decide_unpack _). vm_compute. exact I. Qed.

Lemma bank_map_complete :
  Forall (λ q, ∃ i, q !! "id" = Some i ∧ bank_map !! i = Some q) QUESTIONS.
Proof.
  unfold QUESTIONS.
  repeat (apply Forall_cons; split;
          [eexists; split; [reflexivity | vm_compute; reflexivity] |]).
  apply Forall_nil_2.
Qed.

Lemma in_bank_lookup (qid : string) :
  in_bank qid ↔ is_Some (bank_map !! qid).
Proof.
  unfold in_bank. rewrite Exists_exists. split.
  - intros (q & Hq & Hid).
    destruct (proj1 (Forall_forall _ _) bank_map_complete q Hq)
      as (i & Hi & Hlook).
    rewrite Hid in Hi. injection Hi as <-. by exists q.
  - intros [q Hlook]. exists q.
    destruct (bank_map_sound _ _ Hlook) as (Hq & Hid & _). done.
Qed.

Lemma has_factor_lookup (factor qid : string) (q : gmap string string) :
  bank_map !! qid = Some q →
  has_factor factor qid ↔ q !! "factor" = Some factor.
Proof.
  intros Hlook. unfold has_factor. rewrite Exists_exists. split.
  - intros (q' & Hq' & Hid & Hf).
    destruct (proj1 (Forall_forall _ _) bank_map_complete q' Hq')
      as (i & Hi & Hlook').
    rewrite Hid in Hi. injection Hi as <-. congruence.
  - intros Hf. exists q.
    destruct (bank_map_sound _ _ Hlook) as (Hq & Hid & _). done.
Qed.

(** ** The score aggregator *)

Lemma scores_for_cons (factor : string) (a : QuizAnswer) (l : list QuizAnswer) :
  scores_for factor (a :: l) =
    if decide (has_factor factor (question_id a))
    then score a :: scores_for factor l else scores_for factor l.
Proof. unfold scores_for. rewrite filter_cons. by case_decide. Qed.

Lemma py_contains_true {V} (d : gmap string V) (k : string) :
  is_Some (d !! k) → Py.contains d k = true.
Proof. intros H. by apply bool_decide_eq_true_2. Qed.

Lemma py_contains_false {V} (d : gmap string V) (k : string) :
  d !! k = None → Py.contains d k = false.
Proof.
  intros H. apply bool_decide_eq_false_2. rewrite H. by intros [? ?].
Qed.

Lemma getitem_Some {V} (d : gmap string V) (k : string) (v : V) :
  d !! k = Some v → Py.getitem d k = Py.Return v.
Proof. intros H. unfold Py.getitem. by rewrite H. Qed.

Lemma bind_Return {A B} (a : A) (k : A → Py.outcome B) :
  Py.Return a ≫= k = k a.
Proof. reflexivity. Qed.

Lemma scores_for_app (factor : string) (l1 l2 : list QuizAnswer) :
  scores_for factor (l1 ++ l2) = scores_for factor l1 ++ scores_for factor l2.
Proof. unfold scores_for. by rewrite filter_app, fmap_app. Qed.

(** One iteration of the loop on an answer whose id is in the bank: the
    score goes to the end of the bucket of its factor, the other bucket is
    unchanged. *)
Lemma collect_step (a : QuizAnswer) (rest : list QuizAnswer)
    (fs : gmap string (list Z)) (xs ys : list Z) :
  in_bank (question_id a) →
  fs !! "anxiety" = Some xs →
  fs !! "avoidance" = Some ys →
  ∃ fs1, collect bank_map (a :: rest) fs = collect bank_map rest fs1
    ∧ fs1 !! "anxiety" = Some (xs ++ scores_for "anxiety" [a])
    ∧ fs1 !! "avoidance" = Some (ys ++ scores_for "avoidance" [a]).
Proof.
  intros Ha Hx Hy.
  apply in_bank_lookup in Ha as [q Hq].
  pose proof (has_factor_lookup "anxiety" _ _ Hq) as Hanx.
  pose proof (has_factor_lookup "avoidance" _ _ Hq) as Havo.
  rewrite !scores_for_cons. simpl.
  rewrite py_contains_true by eauto. simpl.
  rewrite (getitem_Some _ _ _ Hq), bind_Return.
  destruct (bank_map_sound _ _ Hq) as (_ & _ & [Hf|Hf]);
    rewrite (getitem_Some _ _ _ Hf), bind_Return.
  - rewrite (getitem_Some _ _ _ Hx), bind_Return.
    rewrite decide_True by (by apply Hanx).
    rewrite decide_False by (rewrite Havo, Hf; discriminate).
    eexists. split; [reflexivity|]. split.
    + apply lookup_insert_eq.
    + by rewrite lookup_insert_ne, app_nil_r.
  - rewrite (getitem_Some _ _ _ Hy), bind_Return.
    rewrite decide_False by (rewrite Hanx, Hf; discriminate).
    rewrite decide_True by (by apply Havo).
    eexists. split; [reflexivity|]. split.
    + by rewrite lookup_insert_ne, app_nil_r.
    + apply lookup_insert_eq.
Qed.

(** The loop over a prefix of answers with ids of the bank. *)
Lemma collect_app_valid (pre : list QuizAnswer) :
  ∀ (rest : list QuizAnswer) (fs : gmap string (list Z)) (xs ys : list Z),
    valid_ids pre →
    fs !! "anxiety" = Some xs →
    fs !! "avoidance" = Some ys →
    ∃ fs', collect bank_map (pre ++ rest) fs = collect bank_map rest fs'
      ∧ fs' !! "anxiety" = Some (xs ++ scores_for "anxiety" pre)
      ∧ fs' !! "avoidance" = Some (ys ++ scores_for "avoidance" pre).
Proof.
  induction pre as [|a pre IH]; intros rest fs xs ys Hvalid Hx Hy.
  - exists fs. unfold scores_for. simpl. by rewrite !app_nil_r.
  - apply Forall_cons in Hvalid as [Ha Hpre].
    destruct (collect_step a (pre ++ rest) fs xs ys Ha Hx Hy)
      as (fs1 & Hstep & Hx1 & Hy1).
    destruct (IH rest fs1 _ _ Hpre Hx1 Hy1) as (fs' & Hloop & Hx' & Hy').
    exists fs'. rewrite <- app_comm_cons, Hstep, Hloop.
    change (a :: pre) with ([a] ++ pre).
    by rewrite !scores_for_app, !app_assoc.
Qed.

Lemma collect_unknown (a : QuizAnswer) (rest : list QuizAnswer)
    (fs : gmap string (list Z)) :
  ¬ in_bank (question_id a) →
  collect bank_map (a :: rest) fs
  = Py.Raise (Py.HTTPException 400
                ("Unknown question id: " +:+ question_id a)).
Proof.
  intros Ha. simpl. rewrite py_contains_false; [done|].
  rewrite in_bank_lookup in Ha. by apply eq_None_not_Some.
Qed.

Lemma compute_scores_valid (answers : list QuizAnswer) :
  valid_ids answers →
  compute_scores answers
  = (anxiety ← bucket_mean (scores_for "anxiety" answers);
     avoidance ← bucket_mean (scores_for "avoidance" answers);
     mret (anxiety, avoidance)).
Proof.
  intros Hvalid. unfold compute_scores, bucket_mean.
  rewrite dict_by_id_QUESTIONS, bind_Return.
  destruct (collect_app_valid answers []
              (<["avoidance" := []]> (<["anxiety" := []]> ∅)) [] [] Hvalid)
    as (fs' & Hloop & Hx & Hy); [done..|].
  rewrite app_nil_r in Hloop. rewrite Hloop. simpl collect.
  rewrite !app_nil_l in Hx, Hy. rewrite bind_Return.
  rewrite !(getitem_Some _ _ _ Hx), !bind_Return.
  destruct (Py.truediv _ _) as [x|e]; [|done].
  rewrite !bind_Return.
  by rewrite !(getitem_Some _ _ _ Hy), !bind_Return.
Qed.

(** The first answer that is not in the bank aborts the aggregation with a
    client error that names its id. *)
Lemma compute_scores_unknown (pre : list QuizAnswer) (a : QuizAnswer)
    (post : list QuizAnswer) :
  valid_ids pre →
  ¬ in_bank (question_id a) →
  compute_scores (pre ++ a :: post)
  = Py.Raise (Py.HTTPException 400
                ("Unknown question id: " +:+ question_id a)).
Proof.
  intros Hpre Ha. unfold compute_scores.
  rewrite dict_by_id_QUESTIONS, bind_Return.
  destruct (collect_app_valid pre (a :: post)
              (<["avoidance" := []]> (<["anxiety" := []]> ∅)) [] [] Hpre)
    as (fs' & -> & _ & _); [done..|].
  by rewrite collect_unknown.
Qed.

Lemma first_unknown (answers : list QuizAnswer) :
  ¬ valid_ids answers →
  ∃ pre a post, answers = pre ++ a :: post
    ∧ valid_ids pre ∧ ¬ in_bank (question_id a).
Proof.
  induction answers as [|a l IH]; intros Hnot.
  - destruct Hnot. constructor.
  - destruct (decide (in_bank (question_id a))) as [Ha|Ha].
    + destruct IH as (pre & b & post & -> & Hpre & Hb).
      { intros Hl. apply Hnot. by constructor. }
      exists (a :: pre), b, post. split; [done|]. split; [|done].
      by constructor.
    + exists [], a, l. split; [done|]. split; [constructor | done].
Qed.


(** ** Sums and means *)

Lemma py_sum_foldr (l : list Z) : Py.sum l = foldr Z.add 0 l.
Proof. unfold Py.sum. apply fold_symmetric; intros; lia. Qed.

Global Instance py_sum_Permutation : Proper ((≡ₚ) ==> (=)) Py.sum.
Proof.
  intros l1 l2 Hperm. rewrite !py_sum_foldr.
  induction Hperm as [|x l1 l2 _ IH|x y l|l1 l2 l3 _ IH1 _ IH2]; simpl; lia.
Qed.

Global Instance scores_for_Permutation (factor : string) :
  Proper ((≡ₚ) ==> (≡ₚ)) (scores_for factor).
Proof. intros l1 l2 Hperm. unfold scores_for. by rewrite Hperm. Qed.

Global Instance bucket_mean_Permutation : Proper ((≡ₚ) ==> (=)) bucket_mean.
Proof.
  intros l1 l2 Hperm. unfold bucket_mean, Py.len.
  by rewrite Hperm.
Qed.

Lemma bucket_mean_nil : bucket_mean [] = Py.Return 0%Q.
Proof. reflexivity. Qed.

(** The exact quotient that the division of a non-empty bucket rounds. *)
Lemma bucket_quotient (x : Z) (l : list Z) :
  (Qred (inject_Z (Py.sum (x :: l))
         / inject_Z (Z.max 1 (Py.len (x :: l))))
   == arithmetic_mean (x :: l))%Q.
Proof.
  unfold arithmetic_mean, Py.len.
  rewrite Qred_correct, py_sum_foldr.
  replace (Z.max 1 (Z.of_nat (length (x :: l))))
    with (Z.of_nat (length (x :: l))) by (simpl length; lia).
  reflexivity.
Qed.

Lemma bucket_mean_cons (x : Z) (l : list Z) :
  bucket_mean (x :: l)
  = let r := Py.round_double
               (Qred (inject_Z (Py.sum (x :: l))
                      / inject_Z (Z.max 1 (Py.len (x :: l))))) in
    if Qle_bool (2 ^ 1024) (Qabs r) then Py.Raise Py.OverflowError
    else Py.Return r.
Proof.
  unfold bucket_mean, Py.truediv.
  destruct (Z.eqb_spec (Z.max 1 (Py.len (x :: l))) 0) as [H|H]; [lia|done].
Qed.

(** A bucket either overflows or gives a double nearest to its mean. *)
Lemma bucket_mean_cases (x : Z) (l : list Z) :
  bucket_mean (x :: l) = Py.Raise Py.OverflowError
  ∨ ∃ r, bucket_mean (x :: l) = Py.Return r
         ∧ nearest_double (arithmetic_mean (x :: l)) r.
Proof.
  rewrite bucket_mean_cons. cbv zeta.
  set (q := Qred _). destruct (Qle_bool _ _) eqn:Hc; [by left|right].
  eexists. split; [done|].
  assert (Qabs (Py.round_double q) < 2 ^ 1024)%Q as Hlt.
  { apply Qnot_le_lt. intros H. apply Qle_bool_iff in H. congruence. }
  split; [by apply round_double_is_double|].
  intros d Hd. rewrite <- (bucket_quotient x l). fold q.
  by apply round_double_nearest.
Qed.

Lemma foldr_add_bounds (lo hi : Z) (l : list Z) :
  Forall (λ x, lo ≤ x ≤ hi) l →
  lo * Z.of_nat (length l) ≤ foldr Z.add 0 l ≤ hi * Z.of_nat (length l).
Proof.
  induction 1 as [|x l Hx _ IH]; simpl length; simpl foldr; [lia|].
  rewrite Nat2Z.inj_succ. lia.
Qed.

Lemma arithmetic_mean_bounds (lo hi x : Z) (l : list Z) :
  Forall (λ x, lo ≤ x ≤ hi) (x :: l) →
  (inject_Z lo <= arithmetic_mean (x :: l)
   ∧ arithmetic_mean (x :: l) <= inject_Z hi)%Q.
Proof.
  intros Hall.
  pose proof (foldr_add_bounds lo hi _ Hall) as [Hlo Hhi].
  unfold arithmetic_mean.
  set (n := Z.of_nat (length (x :: l))) in *.
  set (s := foldr Z.add 0 (x :: l)) in *.
  assert (0 < inject_Z n)%Q as Hn.
  { rewrite <- (Zlt_Qlt 0). subst n. simpl length. lia. }
  split.
  - apply Qle_shift_div_l; [done|].
    rewrite <- inject_Z_mult, <- Zle_Qle. done.
  - apply Qle_shift_div_r; [done|].
    rewrite <- inject_Z_mult, <- Zle_Qle. done.
Qed.

(** A bucket whose mean lies between two doubles gives a number between
    them. *)
Lemma bucket_mean_between_doubles (lo hi : Q) (x : Z) (l : list Z) :
  is_double lo → is_double hi →
  (Qabs lo < 2 ^ 1024)%Q → (Qabs hi < 2 ^ 1024)%Q →
  (lo <= arithmetic_mean (x :: l))%Q → (arithmetic_mean (x :: l) <= hi)%Q →
  ∃ r, bucket_mean (x :: l) = Py.Return r
    ∧ nearest_double (arithmetic_mean (x :: l)) r
    ∧ (lo <= r)%Q ∧ (r <= hi)%Q.
Proof.
  intros Hlo Hhi Hlo' Hhi' H1 H2.
  pose proof (bucket_quotient x l) as Hq.
  assert (lo <= Py.round_double (Qred (inject_Z (Py.sum (x :: l))
            / inject_Z (Z.max 1 (Py.len (x :: l))))))%Q as Hr1.
  { apply round_double_ge_double; [done|]. by rewrite Hq. }
  assert (Py.round_double (Qred (inject_Z (Py.sum (x :: l))
            / inject_Z (Z.max 1 (Py.len (x :: l))))) <= hi)%Q as Hr2.
  { apply round_double_le_double; [done|]. by rewrite Hq. }
  destruct (bucket_mean_cases x l) as [Hov|(r & Hr & Hnear)].
  - rewrite bucket_mean_cons in Hov. cbv zeta in Hov.
    destruct (Qle_bool _ _) eqn:Hc; [|done].
    apply Qle_bool_iff in Hc. exfalso.
    apply Qabs_Qlt_condition in Hlo' as [? ?].
    apply Qabs_Qlt_condition in Hhi' as [? ?].
    revert Hc. apply Qlt_not_le, Qabs_Qlt_condition. split; lra.
  - exists r. split; [done|]. split; [done|].
    rewrite bucket_mean_cons in Hr. cbv zeta in Hr.
    destruct (Qle_bool _ _); [done|]. injection Hr as <-. done.
Qed.

Lemma Qabs_Z_lt_overflow (n : Z) :
  Z.abs n ≤ 2 ^ 1023 → (Qabs (inject_Z n) < 2 ^ 1024)%Q.
Proof.
  intros H. rewrite Qabs_inject_Z.
  apply Qle_lt_trans with (2 ^ 1023)%Q; [|by apply pow2_lt].
  rewrite <- pow2_Z by lia. by rewrite <- Zle_Qle.
Qed.

Lemma is_double_Z_pow2 : is_double (inject_Z (2 ^ 1023)).
Proof. rewrite pow2_Z by lia. apply is_double_pow2. lia. Qed.

Lemma is_double_Z_opp_pow2 : is_double (inject_Z (- 2 ^ 1023)).
Proof. rewrite inject_Z_opp. apply is_double_opp, is_double_Z_pow2. Qed.

(** Scores of magnitude up to [2^1023] never overflow: the bucket gives 0
    when it is empty and a double nearest to its mean otherwise. *)
Lemma bucket_mean_in_range (l : list Z) :
  Forall (λ x, - 2 ^ 1023 ≤ x ≤ 2 ^ 1023) l →
  ∃ r, bucket_mean l = Py.Return r
    ∧ (l = [] → r = 0%Q)
    ∧ (l ≠ [] → nearest_double (arithmetic_mean l) r).
Proof.
  intros Hall. destruct l as [|x l].
  { exists 0%Q. split; [done|]. split; [done|]. by intros []. }
  destruct (arithmetic_mean_bounds _ _ _ _ Hall) as [H1 H2].
  destruct (bucket_mean_between_doubles
              (inject_Z (- 2 ^ 1023)) (inject_Z (2 ^ 1023)) x l
              is_double_Z_opp_pow2 is_double_Z_pow2)
    as (r & Hr & Hnear & _);
    [apply Qabs_Z_lt_overflow; lia | apply Qabs_Z_lt_overflow; lia
    | done | done |].
  exists r. split; [done|]. split; [done|]. by intros _.
Qed.

(** Integer bounds of magnitude up to [2^53] are doubles, and the mean of a
    bucket does not leave them. *)
Lemma bucket_mean_bounds (lo hi : Z) (l : list Z) :
  Z.abs lo ≤ 2 ^ 53 → Z.abs hi ≤ 2 ^ 53 →
  Forall (λ x, lo ≤ x ≤ hi) l →
  ∃ r, bucket_mean l = Py.Return r ∧ zero_or_between lo hi r.
Proof.
  intros Hlo Hhi Hall. destruct l as [|x l].
  { exists 0%Q. split; [done | by left]. }
  destruct (arithmetic_mean_bounds _ _ _ _ Hall) as [H1 H2].
  destruct (bucket_mean_between_doubles (inject_Z lo) (inject_Z hi) x l
              (is_double_Z lo Hlo) (is_double_Z hi Hhi))
    as (r & Hr & _ & Hr1 & Hr2);
    [apply Qabs_Z_lt_overflow; lia | apply Qabs_Z_lt_overflow; lia
    | done | done |].
  exists r. split; [done|]. by right.
Qed.



Lemma scores_for_between (lo hi : Z) (factor : string) (l : list QuizAnswer) :
  scores_between lo hi l → Forall (λ x, lo ≤ x ≤ hi) (scores_for factor l).
Proof.
  induction 1 as [|a l Ha _ IH]; [constructor|].
  rewrite scores_for_cons. case_decide; [by constructor | done].
Qed.

(** With ids of the bank and scores of magnitude up to [2^1023] the
    aggregation returns what the two buckets give. *)
Lemma compute_scores_in_range (answers : list QuizAnswer) :
  valid_ids answers →
  scores_in_double_range answers →
  ∃ x y, compute_scores answers = Py.Return (x, y)
    ∧ bucket_mean (scores_for "anxiety" answers) = Py.Return x
    ∧ bucket_mean (scores_for "avoidance" answers) = Py.Return y.
Proof.
  intros Hvalid Hrange.
  destruct (bucket_mean_in_range (scores_for "anxiety" answers))
    as (x & Hx & _); [by apply scores_for_between|].
  destruct (bucket_mean_in_range (scores_for "avoidance" answers))
    as (y & Hy & _); [by apply scores_for_between|].
  exists x, y. by rewrite compute_scores_valid, Hx, Hy.
Qed.

(** C2, as the specification states it, does not hold for every list of
    answers with ids of the bank: the division of a sum that is too large
    for a float raises, and a mean that is not a double is not returned as
    it is. *)
Lemma compute_scores_overflow_and_rounding :
  valid_ids [answer "X1" (10 ^ 400)]
  ∧ compute_scores [answer "X1" (10 ^ 400)] = Py.Raise Py.OverflowError
  ∧ valid_ids [answer "X1" (2 ^ 53 + 1)]
  ∧ arithmetic_mean (scores_for "anxiety" [answer "X1" (2 ^ 53 + 1)])
    = inject_Z (2 ^ 53 + 1)
  ∧ compute_scores [answer "X1" (2 ^ 53 + 1)]
    = Py.Return (inject_Z (2 ^ 53), 0%Q).
Proof.
  split; [apply (bool_decide_unpack _); vm_compute; exact I|].
  split; [vm_compute; reflexivity|].
  split; [apply (bool_decide_unpack _); vm_compute; exact I|].
  split; vm_compute; reflexivity.
Qed.

(** C2, amended. When every answer names a question of the bank and the
    scores are of magnitude at most [2^1023], [compute_scores] returns (it
    does not raise) a pair of numbers; for each of the two factors the
    number is 0 when no answer belongs to the factor, and otherwise a
    double nearest to the sum of the scores of the answers whose question
    has that factor divided by their count. *)
Theorem compute_scores_factor_means (answers : list QuizAnswer) :
  valid_ids answers →
  scores_in_double_range answers →
  ∃ anxiety avoidance : Q,
    compute_scores answers = Py.Return (anxiety, avoidance)
    ∧ (scores_for "anxiety" answers = [] → anxiety = 0%Q)
    ∧ (scores_for "anxiety" answers ≠ [] →
         nearest_double (arithmetic_mean (scores_for "anxiety" answers))
                        anxiety)
    ∧ (scores_for "avoidance" answers = [] → avoidance = 0%Q)
    ∧ (scores_for "avoidance" answers ≠ [] →
         nearest_double (arithmetic_mean (scores_for "avoidance" answers))
                        avoidance).
Proof.
  intros Hvalid Hrange.
  destruct (bucket_mean_in_range (scores_for "anxiety" answers))
    as (x & Hx & Hx0 & Hx1); [by apply scores_for_between|].
  destruct (bucket_mean_in_range (scores_for "avoidance" answers))
    as (y & Hy & Hy0 & Hy1); [by apply scores_for_between|].
  exists x, y. split; [by rewrite compute_scores_valid, Hx, Hy|].
  done.
Qed.

Lemma compute_scores_factor_means_witness :
  ∃ anxiety avoidance : Q,
    compute_scores [answer "X1" 6; answer "X2" 4; answer "X3" 2]
    = Py.Return (anxiety, avoidance)
    ∧ (scores_for "anxiety" [answer "X1" 6; answer "X2" 4; answer "X3" 2] = [] →
         anxiety = 0%Q)
    ∧ (scores_for "anxiety" [answer "X1" 6; answer "X2" 4; answer "X3" 2] ≠ [] →
         nearest_double
           (arithmetic_mean
              (scores_for "anxiety" [answer "X1" 6; answer "X2" 4; answer "X3" 2]))
           anxiety)
    ∧ (scores_for "avoidance" [answer "X1" 6; answer "X2" 4; answer "X3" 2] = [] →
         avoidance = 0%Q)
    ∧ (scores_for "avoidance" [answer "X1" 6; answer "X2" 4; answer "X3" 2] ≠ [] →
         nearest_double
           (arithmetic_mean
              (scores_for "avoidance" [answer "X1" 6; answer "X2" 4; answer "X3" 2]))
           avoidance).
Proof.
  apply (compute_scores_factor_means
           [answer "X1" 6; answer "X2" 4; answer "X3" 2]).
  - apply (bool_decide_unpack _). vm_compute. exact I.
  - apply (bool_decide_unpack _). vm_compute. exact I.
Defined.

Example compute_scores_6_4_2 :
  compute_scores [answer "X1" 6; answer "X2" 4; answer "X3" 2]
  = Py.Return (4%Q, 0%Q).
Proof. vm_compute. reflexivity. Qed.

(** C8. The result of [compute_scores] does not depend on the order of the
    answers: two lists of answers with ids of the bank that are permutations
    of each other give the same pair of scores. *)
Theorem compute_scores_permutation (answers answers' : list QuizAnswer) :
  valid_ids answers →
  answers ≡ₚ answers' →
  compute_scores answers = compute_scores answers'.
Proof.
  intros Hvalid Hperm.
  assert (valid_ids answers') as Hvalid'.
  { unfold valid_ids. by rewrite <- Hperm. }
  rewrite !compute_scores_valid by done.
  assert (∀ f, bucket_mean (scores_for f answers)
               = bucket_mean (scores_for f answers')) as Heq.
  { intros f. by rewrite Hperm. }
  by rewrite !Heq.
Qed.

Lemma compute_scores_permutation_witness :
  compute_scores [answer "X1" 6; answer "A1" 2; answer "X2" 3]
  = compute_scores [answer "A1" 2; answer "X1" 6; answer "X2" 3].
Proof.
  apply compute_scores_permutation.
  - apply (bool_decide_unpack _). vm_compute. exact I.
  - apply perm_swap.
Defined.

(** With an id that is not in the bank the order matters: the error names
    the first such id. *)
Example compute_scores_unknown_order :
  compute_scores [answer "Z9" 1; answer "Q7" 1]
  = Py.Raise (Py.HTTPException 400 "Unknown question id: Z9")
  ∧ compute_scores [answer "Q7" 1; answer "Z9" 1]
    = Py.Raise (Py.HTTPException 400 "Unknown question id: Q7").
Proof. split; vm_compute; reflexivity. Qed.

(** ** Submissions *)

Section SubmitFacts.

Context {Store : Type}.
Variable create_document :
  string → QuizResult → Store → Py.outcome string * Store.

(** When the scores are computed, the record is built, the collaborator is
    called once, and the response is returned whatever the call does. *)
Lemma submit_quiz_returns (payload : SubmitPayload) (w : World Store)
    (x y : Q) :
  compute_scores (answers payload) = Py.Return (x, y) →
  submit_quiz create_document payload w
  = (Py.Return (quiz_response x y),
     {| trace := trace w ++ [Constructed (quiz_result payload x y);
                             CreateDocument "quizresult"
                                            (quiz_result payload x y)];
        store := (create_document "quizresult" (quiz_result payload x y)
                    (store w)).2 |}).
Proof.
  intros Hscores. unfold submit_quiz, quiz_response, quiz_result.
  rewrite Hscores.
  destruct (classify_style _ _) as [[s p] r]. simpl.
  destruct (create_document _ _ _) as [[i|e] st]; simpl;
    by rewrite <- app_assoc.
Qed.

(** When the aggregation raises, the request raises the same exception and
    leaves the world as it was. *)
Lemma submit_quiz_raises (payload : SubmitPayload) (w : World Store)
    (e : Py.exn) :
  compute_scores (answers payload) = Py.Raise e →
  submit_quiz create_document payload w = (Py.Raise e, w).
Proof. intros Hscores. unfold submit_quiz. by rewrite Hscores. Qed.

Lemma submit_quiz_Return_inv (payload : SubmitPayload) (w : World Store)
    (response : Response) :
  (submit_quiz create_document payload w).1 = Py.Return response →
  ∃ x y, compute_scores (answers payload) = Py.Return (x, y)
    ∧ response = quiz_response x y.
Proof.
  destruct (compute_scores (answers payload)) as [[x y]|e] eqn:Hscores.
  - rewrite (submit_quiz_returns _ _ x y) by done. simpl.
    intros [= <-]. by exists x, y.
  - by rewrite (submit_quiz_raises _ _ e).
Qed.

Lemma submit_quiz_Raise_inv (payload : SubmitPayload) (w : World Store)
    (e : Py.exn) :
  (submit_quiz create_document payload w).1 = Py.Raise e →
  compute_scores (answers payload) = Py.Raise e
  ∧ submit_quiz create_document payload w = (Py.Raise e, w).
Proof.
  destruct (compute_scores (answers payload)) as [[x y]|e'] eqn:Hscores.
  - by rewrite (submit_quiz_returns _ _ x y).
  - rewrite (submit_quiz_raises _ _ e') by done. simpl. by intros [= <-].
Qed.

Lemma submit_quiz_unknown (payload : SubmitPayload) (w : World Store)
    (pre post : list QuizAnswer) (a : QuizAnswer) :
  answers payload = pre ++ a :: post →
  valid_ids pre →
  ¬ in_bank (question_id a) →
  submit_quiz create_document payload w
  = (Py.Raise (Py.HTTPException 400
                 ("Unknown question id: " +:+ question_id a)), w).
Proof.
  intros Heq Hpre Ha. apply submit_quiz_raises.
  by rewrite Heq, compute_scores_unknown.
Qed.

(** Ids of the bank and scores of magnitude up to [2^1023] are accepted. *)
Lemma submit_quiz_accepts (payload : SubmitPayload) (w : World Store) :
  valid_ids (answers payload) →
  scores_in_double_range (answers payload) →
  ∃ x y, compute_scores (answers payload) = Py.Return (x, y)
    ∧ (submit_quiz create_document payload w).1
      = Py.Return (quiz_response x y).
Proof.
  intros Hvalid Hrange.
  destruct (compute_scores_in_range _ Hvalid Hrange) as (x & y & Hxy & _).
  exists x, y. split; [done|]. by rewrite (submit_quiz_returns _ _ x y).
Qed.

End SubmitFacts.

Lemma unknown_iff_not_valid (l : list QuizAnswer) :
  Exists (λ a, ¬ in_bank (question_id a)) l ↔ ¬ valid_ids l.
Proof.
  rewrite Exists_exists. split.
  - intros (a & Hin & Ha) Hall.
    exact (Ha (proj1 (Forall_forall _ _) Hall a Hin)).
  - intros Hnot. apply first_unknown in Hnot as (pre & a & post & -> & _ & Ha).
    exists a. split; [|done]. apply elem_of_app. right. apply elem_of_cons. by left.
Qed.

(** C3. A submission with an answer whose question id is not in the bank
    is rejected: the outcome is the client error 400 whose message ends
    with an id of the submission that is not in the bank, and the world
    is the one before the request, so no record was constructed and the
    persistence collaborator was not called. *)
Theorem submit_quiz_unknown_id_rejected {Store : Type}
    (create_document : string → QuizResult → Store → Py.outcome string * Store)
    (payload : SubmitPayload) (w : World Store) :
  Exists (λ a, ¬ in_bank (question_id a)) (answers payload) →
  ∃ a, a ∈ answers payload
    ∧ ¬ in_bank (question_id a)
    ∧ submit_quiz create_document payload w
      = (Py.Raise (Py.HTTPException 400
                     ("Unknown question id: " +:+ question_id a)), w).
Proof.
  intros Hex. apply unknown_iff_not_valid, first_unknown in Hex
    as (pre & a & post & Heq & Hpre & Ha).
  exists a. split; [|split; [done|]].
  - rewrite Heq. apply elem_of_app. right. apply elem_of_cons. by left.
  - by apply (submit_quiz_unknown _ _ _ pre post).
Qed.

Lemma submit_quiz_unknown_id_rejected_Z9 :
  ∃ a, a ∈ [answer "X1" 5; answer "Z9" 3; answer "A1" 2]
    ∧ ¬ in_bank (question_id a)
    ∧ submit_quiz list_db
        {| answers := [answer "X1" 5; answer "Z9" 3; answer "A1" 2];
           meta := ∅ |}
        (empty_world [])
      = (Py.Raise (Py.HTTPException 400
                     ("Unknown question id: " +:+ question_id a)),
         empty_world []).
Proof.
  apply (submit_quiz_unknown_id_rejected list_db
           {| answers := [answer "X1" 5; answer "Z9" 3; answer "A1" 2];
              meta := ∅ |}).
  apply Exists_cons_tl, Exists_cons_hd.
  apply (bool_decide_unpack _). vm_compute. exact I.
Defined.


(** C5. For a submission whose ids are all in the bank, a collaborator
    whose store call raises changes nothing for the caller: the outcome is
    the one obtained with a collaborator whose store call succeeds; with
    scores of magnitude at most [2^1023] that outcome is a response; a
    response is returned after the store call was made and its exception
    dropped, and it is the response returned when the store call succeeds;
    and an exception that reaches the caller is one of the aggregation,
    raised before any record is built. *)
Theorem submit_quiz_persistence_failure_swallowed {Store1 Store2 : Type}
    (failing : string → QuizResult → Store1 → Py.outcome string * Store1)
    (working : string → QuizResult → Store2 → Py.outcome string * Store2)
    (payload : SubmitPayload) (w1 : World Store1) (w2 : World Store2) :
  valid_ids (answers payload) →
  (∀ r st, Py.raises (failing "quizresult" r st).1) →
  (∀ r st, ¬ Py.raises (working "quizresult" r st).1) →
  (submit_quiz failing payload w1).1 = (submit_quiz working payload w2).1
  ∧ (scores_in_double_range (answers payload) →
       ∃ response, (submit_quiz failing payload w1).1 = Py.Return response)
  ∧ (∀ response,
       (submit_quiz failing payload w1).1 = Py.Return response →
       ∃ record,
         trace (submit_quiz failing payload w1).2
         = trace w1 ++ [Constructed record;
                        CreateDocument "quizresult" record]
         ∧ Py.raises (failing "quizresult" record (store w1)).1
         ∧ (submit_quiz working payload w2).1 = Py.Return response
         ∧ ¬ Py.raises (working "quizresult" record (store w2)).1)
  ∧ (∀ e, (submit_quiz failing payload w1).1 = Py.Raise e →
          compute_scores (answers payload) = Py.Raise e
          ∧ (submit_quiz failing payload w1).2 = w1).
Proof.
  intros Hvalid Hfail Hwork. split; [|split; [|split]].
  - destruct (compute_scores (answers payload)) as [[x y]|e] eqn:Hscores.
    + by rewrite !(submit_quiz_returns _ _ _ x y).
    + by rewrite !(submit_quiz_raises _ _ _ e).
  - intros Hrange.
    destruct (submit_quiz_accepts failing payload w1 Hvalid Hrange)
      as (x & y & _ & Hrun).
    by exists (quiz_response x y).
  - intros response Hrun.
    apply submit_quiz_Return_inv in Hrun as (x & y & Hscores & ->).
    exists (quiz_result payload x y).
    rewrite !(submit_quiz_returns _ _ _ x y) by done. simpl.
    split; [done|]. split; [apply Hfail|]. split; [done | apply Hwork].
  - intros e He. apply submit_quiz_Raise_inv in He as [Hscores Heq].
    by rewrite Heq.
Qed.

Lemma submit_quiz_persistence_failure_swallowed_witness :
  (submit_quiz unconfigured_db
     {| answers := [answer "X1" 6; answer "A2" 3]; meta := ∅ |}
     (empty_world ())).1
  = (submit_quiz list_db
       {| answers := [answer "X1" 6; answer "A2" 3]; meta := ∅ |}
       (empty_world [])).1
  ∧ (scores_in_double_range [answer "X1" 6; answer "A2" 3] →
       ∃ response,
         (submit_quiz unconfigured_db
            {| answers := [answer "X1" 6; answer "A2" 3]; meta := ∅ |}
            (empty_world ())).1 = Py.Return response)
  ∧ (∀ response,
       (submit_quiz unconfigured_db
          {| answers := [answer "X1" 6; answer "A2" 3]; meta := ∅ |}
          (empty_world ())).1 = Py.Return response →
       ∃ record,
         trace (submit_quiz unconfigured_db
                  {| answers := [answer "X1" 6; answer "A2" 3]; meta := ∅ |}
                  (empty_world ())).2
         = [Constructed record; CreateDocument "quizresult" record]
         ∧ Py.raises (unconfigured_db "quizresult" record ()).1
         ∧ (submit_quiz list_db
              {| answers := [answer "X1" 6; answer "A2" 3]; meta := ∅ |}
              (empty_world [])).1 = Py.Return response
         ∧ ¬ Py.raises (list_db "quizresult" record []).1)
  ∧ (∀ e, (submit_quiz unconfigured_db
             {| answers := [answer "X1" 6; answer "A2" 3]; meta := ∅ |}
             (empty_world ())).1 = Py.Raise e →
          compute_scores [answer "X1" 6; answer "A2" 3] = Py.Raise e
          ∧ (submit_quiz unconfigured_db
               {| answers := [answer "X1" 6; answer "A2" 3]; meta := ∅ |}
               (empty_world ())).2 = empty_world ()).
Proof.
  refine (submit_quiz_persistence_failure_swallowed unconfigured_db list_db
            {| answers := [answer "X1" 6; answer "A2" 3]; meta := ∅ |}
            (empty_world ()) (empty_world []) _ _ _).
  - apply (bool_decide_unpack _). vm_compute. exact I.
  - intros r st. simpl. exact I.
  - intros r st. simpl. intros [].
Defined.

(** The failure is dropped on a run where the store call is made. *)
Example submit_quiz_failure_dropped :
  ∃ record,
    submit_quiz unconfigured_db
      {| answers := [answer "X1" 6; answer "A2" 3]; meta := ∅ |}
      (empty_world ())
    = (Py.Return
         {| style := "Anxious (Preoccupied)";
            anxiety_score := 6;
            avoidance_score := 3;
            prevalence := "~20%";
            recommendations :=
              [ "Build self-soothing routines (breathing, grounding).";
                "Communicate needs clearly without protest behaviors.";
                "Seek consistent, responsive partners or therapists." ];
            explanation := "Scores are computed on two dimensions (anxiety and avoidance) derived from the validated ECR-R measure." |},
       {| trace := [Constructed record; CreateDocument "quizresult" record];
          store := () |}).
Proof. eexists. vm_compute. reflexivity. Qed.

(** ** Rounding to two decimals *)

Lemma round2_rounded (x : Q) : rounded_to_2dp x (Py.round2 x).
Proof.
  exists (Py.round_half_even (x * 100)).
  pose proof (round_half_even_near (x * 100)) as H.
  apply Qabs_Qle_condition in H.
  unfold Py.round2. rewrite Qred_correct. split.
  - unfold Qeq. simpl. lia.
  - unfold Qdiv. change (/ 100)%Q with (1 # 100)%Q.
    apply Qabs_Qle_condition. split; lra.
Qed.



(** 14/3 is stored as the double nearest to it and shown as 4.67; 107/40 =
    2.675 is stored as a double just below it and shown as 2.67; 161/40 =
    4.025 is stored as a double just above it and shown as 4.03. *)
Example submit_quiz_rounding :
  ∃ record,
    submit_quiz list_db
      {| answers := [answer "X1" 4; answer "X2" 5; answer "X3" 5];
         meta := ∅ |} (empty_world [])
    = (Py.Return
         {| style := "Anxious (Preoccupied)";
            anxiety_score := 467 # 100;
            avoidance_score := 0;
            prevalence := "~20%";
            recommendations :=
              [ "Build self-soothing routines (breathing, grounding).";
                "Communicate needs clearly without protest behaviors.";
                "Seek consistent, responsive partners or therapists." ];
            explanation := "Scores are computed on two dimensions (anxiety and avoidance) derived from the validated ECR-R measure." |},
       {| trace := [Constructed record; CreateDocument "quizresult" record];
          store := [("quizresult", record)] |})
    ∧ qr_anxiety_score record = (5254199565265579 # 1125899906842624)%Q
    ∧ qr_avoidance_score record = 0%Q.
Proof. eexists. split; [vm_compute; reflexivity|]. split; reflexivity. Qed.

Example submit_quiz_rounding_of_doubles :
  (r ← (submit_quiz unconfigured_db
          {| answers := replicate 27 (answer "X1" 3)
                        ++ replicate 13 (answer "X1" 2);
             meta := ∅ |} (empty_world ())).1;
   mret (anxiety_score r))
  = Py.Return (267 # 100)%Q
  ∧ (r ← (submit_quiz unconfigured_db
            {| answers := replicate 39 (answer "A1" 4) ++ [answer "A1" 5];
               meta := ∅ |} (empty_world ())).1;
     mret (avoidance_score r))
    = Py.Return (403 # 100)%Q.
Proof. split; vm_compute; reflexivity. Qed.

(** ** Listing the questions *)

Lemma question_item_exposes (q : gmap string string) :
  is_Some (q !! "id") → is_Some (q !! "text") →
  ∃ item, question_item q = Py.Return item ∧ exposes q item.
Proof.
  intros [i Hi] [t Ht]. unfold question_item.
  rewrite (getitem_Some _ _ _ Hi), bind_Return.
  rewrite (getitem_Some _ _ _ Ht), bind_Return.
  eexists. split; [reflexivity|]. unfold exposes.
  rewrite Hi, Ht. split; [by eexists|].
  split; [by rewrite lookup_insert_ne, lookup_insert_eq|].
  split; [by rewrite lookup_insert_eq|].
  split; [|by rewrite !lookup_insert_ne].
  rewrite !dom_insert_L, dom_empty_L. set_solver.
Qed.

Lemma comprehension_question_item (qs : list (gmap string string)) :
  Forall (λ q, is_Some (q !! "id") ∧ is_Some (q !! "text")) qs →
  ∃ items, comprehension question_item qs = Py.Return items
    ∧ Forall2 exposes qs items.
Proof.
  induction 1 as [|q qs [Hi Ht] _ (items & IH & Hall)]; simpl.
  - exists []. split; [done | constructor].
  - destruct (question_item_exposes q Hi Ht) as (item & -> & Hitem).
    rewrite bind_Return, IH, bind_Return.
    exists (item :: items). split; [done | by constructor].
Qed.

Lemma exposes_ids (qs items : list (gmap string string)) :
  Forall2 exposes qs items →
  omap (λ q, q !! "id") qs = omap (λ item, item !! "id") items.
Proof.
  induction 1 as [|q item qs items (_ & Hid & _) _ IH]; [done|].
  cbn. rewrite Hid. destruct (q !! "id"); [f_equal|]; exact IH.
Qed.

Lemma QUESTIONS_have_id_and_text :
  Forall (λ q, is_Some (q !! "id") ∧ is_Some (q !! "text")) QUESTIONS.
Proof. apply (bool_decide_unpack _). vm_compute. exact I. Qed.

(** C7. [get_questions] returns, in the order of the bank, one record per
    question with the id and the text of that question; each record has
    exactly the two fields id and text, so none has a factor. *)
Theorem get_questions_exposes_id_and_text :
  ∃ r, get_questions = Py.Return r
    ∧ Forall2 exposes QUESTIONS (questions r)
    ∧ omap (λ item, item !! "id") (questions r)
      = ["A1"; "A2"; "A3"; "A4"; "A5"; "A6";
         "X1"; "X2"; "X3"; "X4"; "X5"; "X6"]
    ∧ scale r = SCALE_INFO.
Proof.
  destruct (comprehension_question_item QUESTIONS QUESTIONS_have_id_and_text)
    as (items & Hitems & Hall).
  exists {| questions := items; scale := SCALE_INFO |}.
  unfold get_questions. rewrite Hitems, bind_Return.
  split; [done|]. split; [done|]. split; [|done]. simpl.
  by rewrite <- (exposes_ids _ _ Hall).
Qed.


(** ** Which submissions raise *)

Lemma compute_scores_raises_iff (l : list QuizAnswer) :
  scores_in_double_range l →
  Py.raises (compute_scores l) ↔ ¬ valid_ids l.
Proof.
  intros Hrange. destruct (decide (valid_ids l)) as [Hvalid|Hnot].
  - destruct (compute_scores_in_range l Hvalid Hrange) as (x & y & -> & _).
    simpl. tauto.
  - destruct (first_unknown _ Hnot) as (pre & a & post & -> & Hpre & Ha).
    rewrite compute_scores_unknown by done. simpl. tauto.
Qed.

(** C9, as the specification states it, does not hold: a submission whose
    ids are all in the bank raises when a score is too large for the
    division. *)
Lemma submit_quiz_overflow_with_bank_ids :
  valid_ids [answer "X1" (10 ^ 400)]
  ∧ submit_quiz list_db
      {| answers := [answer "X1" (10 ^ 400)]; meta := ∅ |} (empty_world [])
    = (Py.Raise Py.OverflowError, empty_world []).
Proof.
  split; [apply (bool_decide_unpack _); vm_compute; exact I|].
  vm_compute. reflexivity.
Qed.

(** C9, amended. A submission whose scores are of magnitude at most
    [2^1023] raises exactly when one of its answers names a question that
    is not in the bank. No condition on the published scale takes part:
    when the ids are in the bank the means are computed from the scores
    whatever their values, for instance from 0 and 99, which are outside
    the scale from 1 to 7. *)
Theorem submit_quiz_raises_iff_unknown_id {Store : Type}
    (create_document : string → QuizResult → Store → Py.outcome string * Store)
    (payload : SubmitPayload) (w : World Store) :
  scores_in_double_range (answers payload) →
  (Py.raises (submit_quiz create_document payload w).1
     ↔ Exists (λ a, ¬ in_bank (question_id a)) (answers payload))
  ∧ (valid_ids (answers payload) →
       ∃ x y,
         compute_scores (answers payload) = Py.Return (x, y)
         ∧ bucket_mean (scores_for "anxiety" (answers payload)) = Py.Return x
         ∧ bucket_mean (scores_for "avoidance" (answers payload))
           = Py.Return y
         ∧ (submit_quiz create_document payload w).1
           = Py.Return (quiz_response x y))
  ∧ compute_scores [answer "X1" 0; answer "X2" 99; answer "A1" 4]
    = Py.Return ((99 # 2)%Q, 4%Q).
Proof.
  intros Hrange. split; [|split; [|by vm_compute]].
  - rewrite unknown_iff_not_valid, <- (compute_scores_raises_iff _ Hrange).
    destruct (compute_scores (answers payload)) as [[x y]|e] eqn:Hscores.
    + by rewrite (submit_quiz_returns _ _ _ x y).
    + by rewrite (submit_quiz_raises _ _ _ e).
  - intros Hvalid.
    destruct (compute_scores_in_range _ Hvalid Hrange)
      as (x & y & Hxy & Hx & Hy).
    exists x, y. by rewrite (submit_quiz_returns _ _ _ x y).
Qed.

Lemma submit_quiz_raises_iff_unknown_id_witness :
  (Py.raises (submit_quiz list_db
                {| answers := [answer "X1" 0; answer "X2" 99]; meta := ∅ |}
                (empty_world [])).1
     ↔ Exists (λ a, ¬ in_bank (question_id a))
              [answer "X1" 0; answer "X2" 99])
  ∧ (valid_ids [answer "X1" 0; answer "X2" 99] →
       ∃ x y,
         compute_scores [answer "X1" 0; answer "X2" 99] = Py.Return (x, y)
         ∧ bucket_mean (scores_for "anxiety" [answer "X1" 0; answer "X2" 99])
           = Py.Return x
         ∧ bucket_mean (scores_for "avoidance" [answer "X1" 0; answer "X2" 99])
           = Py.Return y
         ∧ (submit_quiz list_db
              {| answers := [answer "X1" 0; answer "X2" 99]; meta := ∅ |}
              (empty_world [])).1
           = Py.Return (quiz_response x y))
  ∧ compute_scores [answer "X1" 0; answer "X2" 99; answer "A1" 4]
    = Py.Return ((99 # 2)%Q, 4%Q).
Proof.
  refine (submit_quiz_raises_iff_unknown_id list_db
            {| answers := [answer "X1" 0; answer "X2" 99]; meta := ∅ |}
            (empty_world []) _).
  apply (bool_decide_unpack _). vm_compute. exact I.
Defined.

(** C10. A submission without answers is not rejected: both means are 0,
    which is below the threshold on both axes, and the response has the
    style Secure with both scores 0. *)
Theorem submit_quiz_empty_answers {Store : Type}
    (create_document : string → QuizResult → Store → Py.outcome string * Store)
    (m : gmap string pyval) (w : World Store) :
  ∃ response,
    (submit_quiz create_document {| answers := []; meta := m |} w).1
    = Py.Return response
    ∧ compute_scores [] = Py.Return (0%Q, 0%Q)
    ∧ (0 < 4)%Q
    ∧ style response = "Secure"
    ∧ anxiety_score response = 0%Q
    ∧ avoidance_score response = 0%Q.
Proof.
  exists (quiz_response 0 0).
  rewrite (submit_quiz_returns _ _ _ 0%Q 0%Q) by reflexivity.
  repeat split.
Qed.

(** ** An end-to-end run *)

Example submit_quiz_all_twos :
  (submit_quiz unconfigured_db
     {| answers := [ answer "A1" 2; answer "A2" 2; answer "A3" 2;
                     answer "A4" 2; answer "A5" 2; answer "A6" 2;
                     answer "X1" 2; answer "X2" 2; answer "X3" 2;
                     answer "X4" 2; answer "X5" 2; answer "X6" 2 ];
        meta := ∅ |} (empty_world ())).1
  = Py.Return
      {| style := "Secure";
         anxiety_score := 2;
         avoidance_score := 2;
         prevalence := "~50% of adults in community samples";
         recommendations :=
           [ "Maintain open communication and healthy boundaries.";
             "Continue investing in supportive relationships.";
             "Practice self-reflection to keep patterns secure under stress." ];
         explanation := "Scores are computed on two dimensions (anxiety and avoidance) derived from the validated ECR-R measure." |}.
Proof. vm_compute. reflexivity. Qed.

(** * Further properties of the code *)

(** ** The aggregator *)

(** X1. The loop stops at the first answer whose id is not in the bank:
    when the answers before it have ids of the bank, the error names that
    id, whatever follows it. *)
Theorem compute_scores_names_first_unknown_id
    (pre : list QuizAnswer) (a : QuizAnswer) (post : list QuizAnswer) :
  valid_ids pre →
  ¬ in_bank (question_id a) →
  compute_scores (pre ++ a :: post)
  = Py.Raise (Py.HTTPException 400
                ("Unknown question id: " +:+ question_id a)).
Proof. intros Hpre Ha. by apply compute_scores_unknown. Qed.

Lemma compute_scores_names_first_unknown_id_witness :
  compute_scores ([answer "X1" 5] ++ answer "Z9" 3 :: [answer "Q7" 1])
  = Py.Raise (Py.HTTPException 400
                ("Unknown question id: " +:+ question_id (answer "Z9" 3))).
Proof.
  apply compute_scores_names_first_unknown_id.
  - apply (bool_decide_unpack _). vm_compute. exact I.
  - apply (bool_decide_unpack _). vm_compute. exact I.
Defined.

(** X2. When the ids are in the bank and every score lies between the
    integers [lo] and [hi], both of magnitude at most [2^53], each of the two
    means is 0 (no answer for the factor) or lies between [lo] and [hi]. *)
Theorem compute_scores_between (lo hi : Z) (answers : list QuizAnswer) :
  valid_ids answers →
  scores_between lo hi answers →
  Z.abs lo ≤ 2 ^ 53 →
  Z.abs hi ≤ 2 ^ 53 →
  ∃ anxiety avoidance,
    compute_scores answers = Py.Return (anxiety, avoidance)
    ∧ zero_or_between lo hi anxiety
    ∧ zero_or_between lo hi avoidance.
Proof.
  intros Hvalid Hall Hlo Hhi.
  destruct (bucket_mean_bounds lo hi (scores_for "anxiety" answers))
    as (x & Hx & Hxb); [done | done | by apply scores_for_between|].
  destruct (bucket_mean_bounds lo hi (scores_for "avoidance" answers))
    as (y & Hy & Hyb); [done | done | by apply scores_for_between|].
  exists x, y. by rewrite compute_scores_valid, Hx, Hy.
Qed.

Lemma compute_scores_between_witness :
  ∃ anxiety avoidance,
    compute_scores [answer "X1" 7; answer "X2" 2; answer "A3" 1]
    = Py.Return (anxiety, avoidance)
    ∧ zero_or_between 1 7 anxiety
    ∧ zero_or_between 1 7 avoidance.
Proof.
  apply compute_scores_between.
  - apply (bool_decide_unpack _). vm_compute. exact I.
  - apply (bool_decide_unpack _). vm_compute. exact I.
  - vm_compute. discriminate.
  - vm_compute. discriminate.
Defined.

(** Beyond [2^53] an integer bound need not be a double, and the mean of
    scores that all equal it is rounded away from it. *)
Example compute_scores_not_between :
  compute_scores [answer "X1" (2 ^ 53 + 1)]
  = Py.Return (inject_Z (2 ^ 53), 0%Q).
Proof. vm_compute. reflexivity. Qed.

Lemma has_factor_in_bank (factor qid : string) :
  has_factor factor qid → in_bank qid.
Proof.
  unfold has_factor, in_bank. rewrite !Exists_exists.
  intros (q & Hq & Hid & _). by exists q.
Qed.

Lemma has_factor_unique (f g qid : string) :
  has_factor f qid → has_factor g qid → f = g.
Proof.
  intros Hf Hg.
  destruct (proj1 (in_bank_lookup qid) (has_factor_in_bank _ _ Hf)) as [q Hq].
  apply (has_factor_lookup f _ _ Hq) in Hf.
  apply (has_factor_lookup g _ _ Hq) in Hg. congruence.
Qed.

Lemma scores_for_other_factor (f g : string) (a : QuizAnswer)
    (l1 l2 : list QuizAnswer) :
  has_factor g (question_id a) → f ≠ g →
  scores_for f (l1 ++ a :: l2) = scores_for f (l1 ++ l2).
Proof.
  intros Hg Hne. rewrite !scores_for_app, scores_for_cons.
  rewrite decide_False; [done|].
  intros Hf. apply Hne. by eapply has_factor_unique.
Qed.

Lemma valid_ids_insert (a : QuizAnswer) (l1 l2 : list QuizAnswer) :
  in_bank (question_id a) → valid_ids (l1 ++ l2) → valid_ids (l1 ++ a :: l2).
Proof.
  unfold valid_ids. rewrite !Forall_app, Forall_cons. tauto.
Qed.

Lemma scores_in_double_range_insert (a : QuizAnswer)
    (l1 l2 : list QuizAnswer) :
  scores_in_double_range (l1 ++ a :: l2) → scores_in_double_range (l1 ++ l2).
Proof.
  unfold scores_in_double_range, scores_between.
  rewrite !Forall_app, Forall_cons. tauto.
Qed.

(** X3. The two factors do not interfere: for answers with ids of the bank
    and scores of magnitude at most [2^1023], inserting anywhere an answer
    to an avoidance question leaves the anxiety mean as it was, and an
    answer to an anxiety question leaves the avoidance mean as it was. *)
Theorem compute_scores_factors_independent
    (l1 l2 : list QuizAnswer) (a : QuizAnswer) :
  valid_ids (l1 ++ l2) →
  in_bank (question_id a) →
  scores_in_double_range (l1 ++ a :: l2) →
  ∃ x y x' y',
    compute_scores (l1 ++ l2) = Py.Return (x, y)
    ∧ compute_scores (l1 ++ a :: l2) = Py.Return (x', y')
    ∧ (has_factor "avoidance" (question_id a) → x' = x)
    ∧ (has_factor "anxiety" (question_id a) → y' = y).
Proof.
  intros Hvalid Ha Hrange.
  destruct (compute_scores_in_range (l1 ++ l2) Hvalid
              (scores_in_double_range_insert _ _ _ Hrange))
    as (x & y & Hxy & Hx & Hy).
  destruct (compute_scores_in_range (l1 ++ a :: l2)
              (valid_ids_insert _ _ _ Ha Hvalid) Hrange)
    as (x' & y' & Hxy' & Hx' & Hy').
  exists x, y, x', y'. split; [done|]. split; [done|].
  split; intros Hf.
  - rewrite (scores_for_other_factor "anxiety" "avoidance") in Hx' by done.
    congruence.
  - rewrite (scores_for_other_factor "avoidance" "anxiety") in Hy' by done.
    congruence.
Qed.

Lemma compute_scores_factors_independent_witness :
  ∃ x y x' y',
    compute_scores ([answer "X1" 6] ++ [answer "A1" 2])
    = Py.Return (x, y)
    ∧ compute_scores ([answer "X1" 6] ++ answer "A2" 7 :: [answer "A1" 2])
      = Py.Return (x', y')
    ∧ (has_factor "avoidance" (question_id (answer "A2" 7)) → x' = x)
    ∧ (has_factor "anxiety" (question_id (answer "A2" 7)) → y' = y).
Proof.
  apply compute_scores_factors_independent.
  - apply (bool_decide_unpack _). vm_compute. exact I.
  - apply (bool_decide_unpack _). vm_compute. exact I.
  - apply (bool_decide_unpack _). vm_compute. exact I.
Defined.



(** A repeated answer is not rejected and is not merged: it moves the
    mean. *)
Example compute_scores_repeated_answer :
  compute_scores [answer "X1" 7; answer "X2" 1] = Py.Return (4%Q, 0%Q)
  ∧ compute_scores [answer "X1" 7; answer "X1" 7; answer "X2" 1]
    = Py.Return (5%Q, 0%Q).
Proof. split; vm_compute; reflexivity. Qed.

(** ** From the answers to the style *)

Lemma is_double_below_4 : is_double (inject_Z (2 ^ 53 - 1) / inject_Z (2 ^ 51)).
Proof.
  exists (2 ^ 53 - 1), (-51). split; [by vm_compute|]. split; [lia|].
  by vm_compute.
Qed.

(** With at most [2^51] scores, the float of the mean is below 4 exactly
    when the mean is. *)
Lemma bucket_mean_lt_4 (l : list Z) (r : Q) :
  bucket_mean l = Py.Return r →
  Z.of_nat (length l) ≤ 2 ^ 51 →
  (r < 4)%Q ↔ bucket_low l.
Proof.
  intros Hr Hlen. unfold bucket_low. destruct l as [|x l].
  { injection Hr as <-. split; [by left | done]. }
  rewrite bucket_mean_cons in Hr. cbv zeta in Hr.
  destruct (Qle_bool _ _); [done|]. injection Hr as <-.
  pose proof (bucket_quotient x l) as Hq.
  set (q := Qred _) in *.
  set (n := Z.of_nat (length (x :: l))) in *.
  set (s := foldr Z.add 0 (x :: l)).
  assert (0 < n) as Hn by (subst n; simpl length; lia).
  assert (0 < inject_Z n)%Q as Hn' by (by rewrite <- (Zlt_Qlt 0)).
  assert (q == inject_Z s / inject_Z n)%Q as Hq' by done.
  split.
  - intros Hlt. right.
    assert (q < 4)%Q as Hmean.
    { apply Qnot_le_lt. intros Hge.
      apply (round_double_ge_double 4 q (is_double_Z 4 ltac:(by vm_compute)))
        in Hge.
      by apply Qle_not_lt in Hge. }
    rewrite Hq' in Hmean.
    apply (Qmult_lt_r _ _ _ Hn') in Hmean.
    assert (inject_Z s / inject_Z n * inject_Z n == inject_Z s)%Q as Heq
      by (field; lra).
    rewrite Heq in Hmean. change 4%Q with (inject_Z 4) in Hmean.
    by rewrite <- inject_Z_mult, <- Zlt_Qlt in Hmean.
  - intros [?|Hlow]; [done|]. fold s n in Hlow.
    apply Qle_lt_trans with (inject_Z (2 ^ 53 - 1) / inject_Z (2 ^ 51))%Q;
      [|by vm_compute].
    apply round_double_le_double; [apply is_double_below_4|].
    rewrite Hq'. apply frac_le; [done | by vm_compute|].
    assert (2 ^ 51 = 2251799813685248) as Hp51 by reflexivity.
    assert (2 ^ 53 - 1 = 9007199254740991) as Hp53 by reflexivity.
    rewrite Hp51 in *. rewrite Hp53. lia.
Qed.

(** X5. For a submission of at most [2^51] answers, with ids of the bank
    and scores of magnitude at most [2^1023], the style of the response can
    be read off the integer answers: an axis is low when no answer belongs
    to its factor or when the sum of its scores is below four times their
    number, and the style is the entry of the decision table for the two
    axes. In particular a submission without answers to the anxiety
    questions is never classified as high on anxiety. *)
Theorem submit_quiz_style_from_answers {Store : Type}
    (create_document : string → QuizResult → Store → Py.outcome string * Store)
    (payload : SubmitPayload) (w : World Store) :
  valid_ids (answers payload) →
  scores_in_double_range (answers payload) →
  Z.of_nat (length (answers payload)) ≤ 2 ^ 51 →
  ∃ response,
    (submit_quiz create_document payload w).1 = Py.Return response
    ∧ style response
      = decision_table
          (bool_decide (bucket_low (scores_for "anxiety" (answers payload))))
          (bool_decide (bucket_low (scores_for "avoidance" (answers payload)))).
Proof.
  intros Hvalid Hrange Hlen.
  destruct (compute_scores_in_range _ Hvalid Hrange)
    as (x & y & Hxy & Hx & Hy).
  exists (quiz_response x y).
  rewrite (submit_quiz_returns _ _ _ x y) by done. split; [done|].
  change (style (quiz_response x y)) with (style_of (classify_style x y)).
  rewrite classify_style_table.
  assert (∀ f, Z.of_nat (length (scores_for f (answers payload))) ≤ 2 ^ 51)
    as Hlen'.
  { intros f. unfold scores_for. rewrite length_fmap.
    pose proof (length_filter (λ a, has_factor f (question_id a))
                  (answers payload)). lia. }
  f_equal; apply bool_decide_ext; by apply bucket_mean_lt_4.
Qed.

Lemma submit_quiz_style_from_answers_witness :
  ∃ response,
    (submit_quiz list_db
       {| answers := [answer "A1" 5; answer "A2" 3]; meta := ∅ |}
       (empty_world [])).1 = Py.Return response
    ∧ style response
      = decision_table
          (bool_decide (bucket_low
             (scores_for "anxiety" [answer "A1" 5; answer "A2" 3])))
          (bool_decide (bucket_low
             (scores_for "avoidance" [answer "A1" 5; answer "A2" 3]))).
Proof.
  refine (submit_quiz_style_from_answers list_db
            {| answers := [answer "A1" 5; answer "A2" 3]; meta := ∅ |}
            (empty_world []) _ _ _).
  - apply (bool_decide_unpack _). vm_compute. exact I.
  - apply (bool_decide_unpack _). vm_compute. exact I.
  - vm_compute. discriminate.
Defined.

(** ** The classifier *)

(** X6. Whatever the scores, [classify_style] returns three
    recommendations, and the style determines the prevalence and the
    recommendations: two calls that return the same style return the same
    triple. *)
Theorem classify_style_determined_by_style (a b a' b' : Q) :
  length (classify_style a b).2 = 3%nat
  ∧ (style_of (classify_style a b) = style_of (classify_style a' b') →
     classify_style a b = classify_style a' b').
Proof.
  unfold classify_style, style_of.
  destruct (Py.lt a 4 && Py.lt b 4), (Py.ge a 4 && Py.lt b 4),
    (Py.lt a 4 && Py.ge b 4), (Py.lt a' 4 && Py.lt b' 4),
    (Py.ge a' 4 && Py.lt b' 4), (Py.lt a' 4 && Py.ge b' 4);
    split; first [reflexivity | discriminate].
Qed.

(** X7. Exchanging the two scores exchanges Anxious (Preoccupied) and
    Avoidant (Dismissive) and keeps Secure and Fearful-Avoidant
    (Disorganized). *)
Theorem classify_style_swap (a b : Q) :
  style_of (classify_style b a) = swap_axes (style_of (classify_style a b)).
Proof.
  rewrite !classify_style_table.
  by destruct (bool_decide (a < 4)%Q), (bool_decide (b < 4)%Q).
Qed.

(** X8. Only the side of the threshold matters: two pairs of scores that
    are on the same side of 4 on each axis get the same style, prevalence
    and recommendations. *)
Theorem classify_style_same_sides (a b a' b' : Q) :
  ((a < 4)%Q ↔ (a' < 4)%Q) →
  ((b < 4)%Q ↔ (b' < 4)%Q) →
  classify_style a b = classify_style a' b'.
Proof.
  intros Ha Hb. unfold classify_style.
  rewrite !py_ge_not_lt, !py_lt_decide.
  by rewrite (bool_decide_ext _ _ Ha), (bool_decide_ext _ _ Hb).
Qed.

Lemma classify_style_same_sides_witness :
  classify_style 1 (9 # 2) = classify_style (399 # 100) 7.
Proof.
  apply classify_style_same_sides.
  - split; intros _; reflexivity.
  - split; intros H; discriminate H.
Defined.

(** ** Requests *)

(** X9. What a request returns or raises depends on the answers only: not on
    the metadata sent with them, not on the persistence collaborator, and
    not on what earlier requests left in the world. *)
Theorem submit_quiz_outcome_depends_on_answers_only {Store1 Store2 : Type}
    (create_document1 : string → QuizResult → Store1 → Py.outcome string * Store1)
    (create_document2 : string → QuizResult → Store2 → Py.outcome string * Store2)
    (l : list QuizAnswer) (m1 m2 : gmap string pyval)
    (w1 : World Store1) (w2 : World Store2) :
  (submit_quiz create_document1 {| answers := l; meta := m1 |} w1).1
  = (submit_quiz create_document2 {| answers := l; meta := m2 |} w2).1.
Proof.
  destruct (compute_scores l) as [[x y]|e] eqn:Hscores.
  - by rewrite !(submit_quiz_returns _ _ _ x y).
  - by rewrite !(submit_quiz_raises _ _ _ e).
Qed.

Lemma or_empty_id {V} (d : gmap string V) : or_empty d = d.
Proof.
  unfold or_empty. case_bool_decide as H; [|done].
  symmetry. by apply map_size_empty_iff.
Qed.

(** X10. A submission whose ids are all in the bank is stored as it was
    sent: with scores of magnitude at most [2^1023] a response is returned;
    and whenever a response is returned, the collaborator was called once,
    for the collection "quizresult", with a record that holds the submitted
    answers and the submitted metadata unchanged, and the store afterwards
    is the one the collaborator left, whether its call returned or
    raised. *)
Theorem submit_quiz_stores_submission {Store : Type}
    (create_document : string → QuizResult → Store → Py.outcome string * Store)
    (payload : SubmitPayload) (w : World Store) :
  valid_ids (answers payload) →
  (scores_in_double_range (answers payload) →
     ∃ response,
       (submit_quiz create_document payload w).1 = Py.Return response)
  ∧ (∀ response,
       (submit_quiz create_document payload w).1 = Py.Return response →
       ∃ record,
         trace (submit_quiz create_document payload w).2
         = trace w ++ [Constructed record;
                       CreateDocument "quizresult" record]
         ∧ store (submit_quiz create_document payload w).2
           = (create_document "quizresult" record (store w)).2
         ∧ qr_answers record = answers payload
         ∧ qr_meta record = meta payload).
Proof.
  intros Hvalid. split.
  - intros Hrange.
    destruct (submit_quiz_accepts create_document payload w Hvalid Hrange)
      as (x & y & _ & Hrun).
    by exists (quiz_response x y).
  - intros response Hrun.
    apply submit_quiz_Return_inv in Hrun as (x & y & Hscores & _).
    exists (quiz_result payload x y).
    rewrite (submit_quiz_returns _ _ _ x y) by done. simpl.
    repeat split. apply or_empty_id.
Qed.

Lemma submit_quiz_stores_submission_witness :
  (scores_in_double_range [answer "X1" 6; answer "A2" 3] →
     ∃ response,
       (submit_quiz list_db
          {| answers := [answer "X1" 6; answer "A2" 3];
             meta := {["source" := PStr "web"]} |}
          (empty_world [])).1 = Py.Return response)
  ∧ (∀ response,
       (submit_quiz list_db
          {| answers := [answer "X1" 6; answer "A2" 3];
             meta := {["source" := PStr "web"]} |}
          (empty_world [])).1 = Py.Return response →
       ∃ record,
         trace (submit_quiz list_db
                  {| answers := [answer "X1" 6; answer "A2" 3];
                     meta := {["source" := PStr "web"]} |}
                  (empty_world [])).2
         = [Constructed record; CreateDocument "quizresult" record]
         ∧ store (submit_quiz list_db
                    {| answers := [answer "X1" 6; answer "A2" 3];
                       meta := {["source" := PStr "web"]} |}
                    (empty_world [])).2
           = (list_db "quizresult" record []).2
         ∧ qr_answers record = [answer "X1" 6; answer "A2" 3]
         ∧ qr_meta record = {["source" := PStr "web"]}).
Proof.
  refine (submit_quiz_stores_submission list_db
            {| answers := [answer "X1" 6; answer "A2" 3];
               meta := {["source" := PStr "web"]} |} (empty_world []) _).
  apply (bool_decide_unpack _). vm_compute. exact I.
Defined.

(** Rounding to two decimals does not cross an integer. *)
Lemma round2_ge_Z (n : Z) (x : Q) :
  (inject_Z n <= x)%Q → (inject_Z n <= Py.round2 x)%Q.
Proof.
  intros H. destruct (round2_rounded x) as (k & Hk & Habs).
  apply Qabs_Qle_condition in Habs as [Hlo _]. rewrite Hk in *.
  assert (inject_Z n - (1 # 200) <= k # 100)%Q as Hq by lra.
  unfold Qle in *. simpl in *. lia.
Qed.

Lemma round2_le_Z (n : Z) (x : Q) :
  (x <= inject_Z n)%Q → (Py.round2 x <= inject_Z n)%Q.
Proof.
  intros H. destruct (round2_rounded x) as (k & Hk & Habs).
  apply Qabs_Qle_condition in Habs as [_ Hhi]. rewrite Hk in *.
  assert (k # 100 <= inject_Z n + (1 # 200))%Q as Hq by lra.
  unfold Qle in *. simpl in *. lia.
Qed.

Lemma round2_lt_4 (x : Q) : (Py.round2 x < 4)%Q → (x < 4)%Q.
Proof.
  intros H. apply Qnot_le_lt. intros Hx.
  apply (round2_ge_Z 4) in Hx. by apply Qle_not_lt in Hx.
Qed.

Lemma round2_gt_4 (x : Q) : (4 < Py.round2 x)%Q → (4 <= x)%Q.
Proof.
  intros H. apply Qnot_lt_le. intros Hx.
  apply Qlt_le_weak, (round2_le_Z 4) in Hx. by apply Qle_not_lt in Hx.
Qed.

(** X11. For a submission whose ids are all in the bank, the scores shown
    in the response agree with its style except at the threshold itself:
    with scores of magnitude at most [2^1023] a response is returned; and
    in a response that is returned, a shown anxiety score below 4 comes with
    a style that is low on anxiety, one above 4 with a style that is high
    on anxiety, and likewise for avoidance. (The style is decided on the
    means before they are rounded, so a shown 4 can come with either
    side.) *)
Theorem submit_quiz_shown_scores_agree_with_style {Store : Type}
    (create_document : string → QuizResult → Store → Py.outcome string * Store)
    (payload : SubmitPayload) (w : World Store) :
  valid_ids (answers payload) →
  (scores_in_double_range (answers payload) →
     ∃ response,
       (submit_quiz create_document payload w).1 = Py.Return response)
  ∧ (∀ response,
       (submit_quiz create_document payload w).1 = Py.Return response →
       ((anxiety_score response < 4)%Q →
          style response ∈ ["Secure"; "Avoidant (Dismissive)"])
       ∧ ((4 < anxiety_score response)%Q →
            style response ∈ ["Anxious (Preoccupied)";
                              "Fearful-Avoidant (Disorganized)"])
       ∧ ((avoidance_score response < 4)%Q →
            style response ∈ ["Secure"; "Anxious (Preoccupied)"])
       ∧ ((4 < avoidance_score response)%Q →
            style response ∈ ["Avoidant (Dismissive)";
                              "Fearful-Avoidant (Disorganized)"])).
Proof.
  intros Hvalid. split.
  { intros Hrange.
    destruct (submit_quiz_accepts create_document payload w Hvalid Hrange)
      as (x & y & _ & Hrun).
    by exists (quiz_response x y). }
  intros response Hrun.
  apply submit_quiz_Return_inv in Hrun as (x & y & _ & ->).
  change (style (quiz_response x y)) with (style_of (classify_style x y)).
  rewrite classify_style_table. simpl anxiety_score. simpl avoidance_score.
  repeat split; intros H.
  - apply round2_lt_4 in H. rewrite (bool_decide_eq_true_2 _ H).
    case_bool_decide; set_solver.
  - apply round2_gt_4, not_lt_iff_le in H.
    rewrite (bool_decide_eq_false_2 _ H). case_bool_decide; set_solver.
  - apply round2_lt_4 in H. rewrite (bool_decide_eq_true_2 _ H).
    case_bool_decide; set_solver.
  - apply round2_gt_4, not_lt_iff_le in H.
    rewrite (bool_decide_eq_false_2 _ H). case_bool_decide; set_solver.
Qed.

Lemma submit_quiz_shown_scores_agree_with_style_witness :
  (scores_in_double_range [answer "X1" 7; answer "A2" 2] →
     ∃ response,
       (submit_quiz list_db
          {| answers := [answer "X1" 7; answer "A2" 2]; meta := ∅ |}
          (empty_world [])).1 = Py.Return response)
  ∧ (∀ response,
       (submit_quiz list_db
          {| answers := [answer "X1" 7; answer "A2" 2]; meta := ∅ |}
          (empty_world [])).1 = Py.Return response →
       ((anxiety_score response < 4)%Q →
          style response ∈ ["Secure"; "Avoidant (Dismissive)"])
       ∧ ((4 < anxiety_score response)%Q →
            style response ∈ ["Anxious (Preoccupied)";
                              "Fearful-Avoidant (Disorganized)"])
       ∧ ((avoidance_score response < 4)%Q →
            style response ∈ ["Secure"; "Anxious (Preoccupied)"])
       ∧ ((4 < avoidance_score response)%Q →
            style response ∈ ["Avoidant (Dismissive)";
                              "Fearful-Avoidant (Disorganized)"])).
Proof.
  refine (submit_quiz_shown_scores_agree_with_style list_db
            {| answers := [answer "X1" 7; answer "A2" 2]; meta := ∅ |}
            (empty_world []) _).
  apply (bool_decide_unpack _). vm_compute. exact I.
Defined.

(** At the threshold the shown score does not tell the side: 1199/300 is
    shown as 4 and is classified as low. *)
Example submit_quiz_shown_4_low :
  ∃ response,
    (submit_quiz unconfigured_db
       {| answers := replicate 299 (answer "X1" 4) ++ [answer "X1" 3];
          meta := ∅ |} (empty_world ())).1 = Py.Return response
    ∧ anxiety_score response = 4%Q
    ∧ style response = "Secure".
Proof. eexists. split; [vm_compute; reflexivity|]. split; reflexivity. Qed.

Lemma round2_zero_or_between (lo hi : Z) (x : Q) :
  zero_or_between lo hi x → zero_or_between lo hi (Py.round2 x).
Proof.
  intros [->|[Hlo Hhi]]; [by left | right].
  split; [by apply round2_ge_Z | by apply round2_le_Z].
Qed.

(** X12. Answers within the published scale give scores within it: when the
    ids are in the bank and every score lies between the minimum and the
    maximum of [SCALE_INFO], each score of the response is 0 (no answer for
    the factor) or lies between that minimum and that maximum. *)
Theorem submit_quiz_scores_in_scale {Store : Type}
    (create_document : string → QuizResult → Store → Py.outcome string * Store)
    (payload : SubmitPayload) (w : World Store) :
  valid_ids (answers payload) →
  scores_between (scale_min SCALE_INFO) (scale_max SCALE_INFO)
                 (answers payload) →
  ∃ response,
    (submit_quiz create_document payload w).1 = Py.Return response
    ∧ zero_or_between (scale_min SCALE_INFO) (scale_max SCALE_INFO)
                      (anxiety_score response)
    ∧ zero_or_between (scale_min SCALE_INFO) (scale_max SCALE_INFO)
                      (avoidance_score response).
Proof.
  intros Hvalid Hall.
  destruct (bucket_mean_bounds (scale_min SCALE_INFO) (scale_max SCALE_INFO)
              (scores_for "anxiety" (answers payload)))
    as (x & Hx & Hxb);
    [by vm_compute | by vm_compute | by apply scores_for_between|].
  destruct (bucket_mean_bounds (scale_min SCALE_INFO) (scale_max SCALE_INFO)
              (scores_for "avoidance" (answers payload)))
    as (y & Hy & Hyb);
    [by vm_compute | by vm_compute | by apply scores_for_between|].
  exists (quiz_response x y).
  rewrite (submit_quiz_returns _ _ _ x y)
    by (by rewrite compute_scores_valid, Hx, Hy).
  split; [done|]. split; by apply round2_zero_or_between.
Qed.

Lemma submit_quiz_scores_in_scale_witness :
  ∃ response,
    (submit_quiz list_db
       {| answers := [answer "X1" 7; answer "X2" 6; answer "X3" 6];
          meta := ∅ |} (empty_world [])).1 = Py.Return response
    ∧ zero_or_between (scale_min SCALE_INFO) (scale_max SCALE_INFO)
                      (anxiety_score response)
    ∧ zero_or_between (scale_min SCALE_INFO) (scale_max SCALE_INFO)
                      (avoidance_score response).
Proof.
  refine (submit_quiz_scores_in_scale list_db
            {| answers := [answer "X1" 7; answer "X2" 6; answer "X3" 6];
               meta := ∅ |} (empty_world []) _ _).
  - apply (bool_decide_unpack _). vm_compute. exact I.
  - apply (bool_decide_unpack _). vm_compute. exact I.
Defined.

(** ** Listing and submitting *)

Lemma exposes_listed (qs items : list (gmap string string)) (qid : string) :
  Forall2 exposes qs items →
  listed items qid ↔ Exists (λ q, q !! "id" = Some qid) qs.
Proof.
  unfold listed.
  induction 1 as [|q item qs items (_ & Hid & _) _ IH].
  - split; [intros (item & Hin & _); by apply elem_of_nil in Hin|].
    intros H. by apply Exists_nil in H.
  - rewrite Exists_cons, <- IH. split.
    + intros (i & Hin & Hi). apply elem_of_cons in Hin as [->|Hin].
      * left. by rewrite <- Hid.
      * right. by exists i.
    + intros [Hq|(i & Hin & Hi)].
      * exists item. split; [by left | by rewrite Hid].
      * exists i. split; [by right | done].
Qed.

Lemma compute_scores_rejected_iff (l : list QuizAnswer) :
  rejected (compute_scores l) ↔ ¬ valid_ids l.
Proof.
  destruct (decide (valid_ids l)) as [Hvalid|Hnot].
  - split; [|done]. intros [detail Hd]. exfalso.
    rewrite compute_scores_valid in Hd by done.
    destruct (scores_for "anxiety" l) as [|x1 l1].
    + rewrite bucket_mean_nil, bind_Return in Hd.
      destruct (scores_for "avoidance" l) as [|y1 l2]; [done|].
      destruct (bucket_mean_cases y1 l2) as [Hov|(r & Hr & _)].
      * by rewrite Hov in Hd.
      * by rewrite Hr in Hd.
    + destruct (bucket_mean_cases x1 l1) as [Hov|(r & Hr & _)].
      * by rewrite Hov in Hd.
      * rewrite Hr, bind_Return in Hd.
        destruct (scores_for "avoidance" l) as [|y1 l2]; [done|].
        destruct (bucket_mean_cases y1 l2) as [Hov|(r' & Hr' & _)].
        -- by rewrite Hov in Hd.
        -- by rewrite Hr' in Hd.
  - split; [done|]. intros _.
    destruct (first_unknown _ Hnot) as (pre & a & post & -> & Hpre & Ha).
    rewrite compute_scores_unknown by done. by eexists.
Qed.

(** X13. The ids that [get_questions] lists are the ids that
    [compute_scores] accepts: a list of answers is rejected with the client
    error exactly when some answer names an id that is not listed; and when
    its scores are of magnitude at most [2^1023], it is aggregated without
    any error exactly when every answer names a listed id. *)
Theorem get_questions_lists_accepted_ids :
  ∃ r, get_questions = Py.Return r
    ∧ ∀ l : list QuizAnswer,
        (Forall (λ a, listed (questions r) (question_id a)) l
         ↔ ¬ rejected (compute_scores l))
        ∧ (scores_in_double_range l →
             Forall (λ a, listed (questions r) (question_id a)) l
             ↔ ¬ Py.raises (compute_scores l)).
Proof.
  destruct (comprehension_question_item QUESTIONS QUESTIONS_have_id_and_text)
    as (items & Hitems & Hall).
  exists {| questions := items; scale := SCALE_INFO |}.
  unfold get_questions. rewrite Hitems, bind_Return. split; [done|].
  intros l. simpl questions.
  assert (Forall (λ a, listed items (question_id a)) l ↔ valid_ids l) as ->.
  { unfold valid_ids, in_bank. apply Forall_iff. intros a.
    by apply exposes_listed. }
  split.
  - rewrite compute_scores_rejected_iff.
    split; [tauto|]. intros H. by destruct (decide (valid_ids l)).
  - intros Hrange. rewrite (compute_scores_raises_iff _ Hrange).
    split; [tauto|]. intros H. by destruct (decide (valid_ids l)).
Qed.
